(** * DevWorkspaceClient: status subscription and reconciliation

    A shallow embedding of the [DevWorkspaceClient] class of the dashboard
    frontend (services/workspace-client/devworkspace): the per-namespace
    cache of status updates, the three WebSocket channel listeners, the
    (re)subscription sequence and the failure-listener bookkeeping.

    The client is single threaded: every method and every listener runs to
    completion on the client state.  State is passed explicitly, [throw] is
    an abrupt completion that keeps the state reached so far, and every call
    that leaves the class (application callbacks, alerts, the console, the
    WebSocket transport, the backend REST client) is recorded, in order, in
    a trace of effects. *)

From Stdlib Require Import ZArith.
From stdpp Require Import base option list gmap strings pretty.

(** ** JavaScript values *)

Module Js.

(** A value of static type [unknown], as a channel listener receives it. *)
#[warnings="-register-all"]
Inductive unknown : Type :=
| Undefined
| Null
| Boolean (b : bool)
| Number (n : Z)
| Str (s : string)
| Object (props : list (string * unknown)).

(** The [typeof] operator. *)
Definition typeof (v : unknown) : string :=
  match v with
  | Undefined => "undefined"
  | Null => "object"
  | Boolean _ => "boolean"
  | Number _ => "number"
  | Str _ => "string"
  | Object _ => "object"
  end.

(** Truthiness of a value of type [string | undefined]: [undefined] and the
    empty string are falsy. *)
Definition truthy (v : option string) : bool :=
  match v with
  | Some (String _ _) => true
  | Some EmptyString => false
  | None => false
  end.

(** The double-quote character of the alert titles. *)
Definition dquote : string :=
  String (Ascii.Ascii false true false false false true false false) EmptyString.

End Js.

(** ** The resource types of [devfileApi] *)

Module devfileApi.

Record Metadata : Type := {
  name : string;
  namespace : string;
  uid : string;
}.

(** [status.phase] is read behind a [typeof] test, so it is kept as it
    arrives ([Js.Undefined] when the field is absent); [status.message] is
    used at its declared type [string | undefined]. *)
Record Status : Type := {
  phase : Js.unknown;
  message : option string;
  mainUrl : option string;
  devworkspaceId : option string;
}.

Record DevWorkspace : Type := {
  metadata : Metadata;
  status : option Status;
}.

(** [devworkspace.status?.phase] *)
Definition status_phase (dw : DevWorkspace) : Js.unknown :=
  match status dw with
  | Some st => phase st
  | None => Js.Undefined
  end.

(** [devworkspace.status?.message] *)
Definition status_message (dw : DevWorkspace) : option string :=
  match status dw with
  | Some st => message st
  | None => None
  end.

Record IPatch : Type := {
  op : string;
  path : string;
  value : Js.unknown;
}.

End devfileApi.

Module DevWorkspaceStatus.

(** Modelled from the spec: the [DevWorkspaceStatus] enum of helpers/types
    is not among the sources; the members the client names are taken with
    the spelling of the specification's list of status phases. *)
Definition STARTING : string := "STARTING".
Definition RUNNING : string := "RUNNING".
Definition FAILED : string := "FAILED".

End DevWorkspaceStatus.

(** ** Messages, subscribers and effects *)

Record IStatusUpdate : Type := {
  error : option string;
  message : option string;
  status : option string;
  prevStatus : option string;
  workspaceId : string;
}.

(** [statusUpdate.message = m] *)
Definition set_message (m : string) (u : IStatusUpdate) : IStatusUpdate :=
  {| error := error u; message := Some m; status := status u;
     prevStatus := prevStatus u; workspaceId := workspaceId u |}.

(** [prevStatus?.status], under [≫=] *)
Definition status_of (u : IStatusUpdate) : option string := status u.

(** The four callbacks of a subscriber are closures of the surrounding
    application.  The model keeps the identity of the callbacks object; a
    call to one of them is an [Effect]. *)
Record Callbacks : Type := { callbacksRef : nat }.

Record Subscriber : Type := {
  namespace : string;
  callbacks : Callbacks;
}.

Record SubscribeParams : Type := {
  params_namespace : string;
  resourceVersion : option string;
}.

Record SubscribeMessage : Type := {
  request : string;
  params : SubscribeParams;
  channel : string;
}.

Inductive AlertVariant : Type := warning | danger.

Record AlertItem : Type := {
  key : string;
  variant : AlertVariant;
  title : string;
}.

(** The closures handed to [websocketClient.addListener]; each captures the
    [callbacks] of the subscriber that was set when [subscribe] ran. *)
Inductive Listener : Type :=
| ModifiedListener (cbs : Callbacks)
| AddedListener (cbs : Callbacks)
| DeletedListener (cbs : Callbacks).

Inductive Effect : Type :=
| ConsoleWarn (text : string) (args : list Js.unknown)
| ShowAlert (alert : AlertItem)
| GetResourceVersion (cbs : Callbacks)
| UpdateDevWorkspaceStatus (cbs : Callbacks) (update : IStatusUpdate)
| UpdateDeletedDevWorkspaces (cbs : Callbacks) (ids : list string)
| UpdateAddedDevWorkspaces (cbs : Callbacks) (added : list devfileApi.DevWorkspace)
| WsConnect
| WsSubscribe (msg : SubscribeMessage)
| WsAddListener (chan : string) (l : Listener)
| PatchWorkspace (ns name : string) (patch : list devfileApi.IPatch)
| FailedListenerCall (callback : nat).

(** What an awaited promise of an external collaborator settles to; a
    rejection reason is kept as the text a template literal renders. *)
Inductive Outcome (A : Type) : Type :=
| Resolved (a : A)
| Rejects (reason : string).
Arguments Resolved {A} a.
Arguments Rejects {A} reason.

(** What a [throw] carries: a bare string, an [Error] object with its
    message, or the reason of a rejected external promise. *)
Inductive Thrown : Type :=
| ThrowString (s : string)
| ThrowError (msg : string)
| Rejection (reason : string).

(** [`${e}`] *)
Definition render (e : Thrown) : string :=
  match e with
  | ThrowString s => s
  | ThrowError msg => "Error: " +:+ msg
  | Rejection reason => reason
  end.

Inductive Completion (A : Type) : Type :=
| Normal (a : A)
| Abrupt (e : Thrown).
Arguments Normal {A} a.
Arguments Abrupt {A} e.

(** ** Client state *)

(** [EventEmitter]: listeners by event name, in registration order. *)
Abbreviation EventEmitter := (gmap string (list nat)).

Record DevWorkspaceClient : Type := {
  subscriber : option Subscriber;
  previousItems : gmap string (gmap string IStatusUpdate);
  lastDevWorkspaceLog : gmap string string;
  webSocketEventEmitter : EventEmitter;
  _failingWebSockets : list string;
}.

Definition webSocketEventName : string := "websocketClose".

(** The state the constructor leaves. *)
Definition new_client : DevWorkspaceClient :=
  {| subscriber := None;
     previousItems := ∅;
     lastDevWorkspaceLog := ∅;
     webSocketEventEmitter := ∅;
     _failingWebSockets := [] |}.

Definition set_subscriber (s : option Subscriber) (c : DevWorkspaceClient) :=
  {| subscriber := s;
     previousItems := previousItems c;
     lastDevWorkspaceLog := lastDevWorkspaceLog c;
     webSocketEventEmitter := webSocketEventEmitter c;
     _failingWebSockets := _failingWebSockets c |}.

Definition set_previousItems (p : gmap string (gmap string IStatusUpdate))
    (c : DevWorkspaceClient) :=
  {| subscriber := subscriber c;
     previousItems := p;
     lastDevWorkspaceLog := lastDevWorkspaceLog c;
     webSocketEventEmitter := webSocketEventEmitter c;
     _failingWebSockets := _failingWebSockets c |}.

Definition set_lastDevWorkspaceLog (l : gmap string string)
    (c : DevWorkspaceClient) :=
  {| subscriber := subscriber c;
     previousItems := previousItems c;
     lastDevWorkspaceLog := l;
     webSocketEventEmitter := webSocketEventEmitter c;
     _failingWebSockets := _failingWebSockets c |}.

Definition set_webSocketEventEmitter (e : EventEmitter)
    (c : DevWorkspaceClient) :=
  {| subscriber := subscriber c;
     previousItems := previousItems c;
     lastDevWorkspaceLog := lastDevWorkspaceLog c;
     webSocketEventEmitter := e;
     _failingWebSockets := _failingWebSockets c |}.

Definition set_failingWebSockets (f : list string) (c : DevWorkspaceClient) :=
  {| subscriber := subscriber c;
     previousItems := previousItems c;
     lastDevWorkspaceLog := lastDevWorkspaceLog c;
     webSocketEventEmitter := webSocketEventEmitter c;
     _failingWebSockets := f |}.

(** ** The monad of client methods *)

Record Run (A : Type) : Type := {
  completion : Completion A;
  final : DevWorkspaceClient;
  trace : list Effect;
}.
Arguments completion {A} r.
Arguments final {A} r.
Arguments trace {A} r.

Definition M (A : Type) : Type := DevWorkspaceClient -> Run A.

Definition ret {A} (a : A) : M A :=
  fun c => {| completion := Normal a; final := c; trace := [] |}.

Definition throw {A} (e : Thrown) : M A :=
  fun c => {| completion := Abrupt e; final := c; trace := [] |}.

Definition bind {A B} (m : M A) (k : A -> M B) : M B :=
  fun c =>
    match m c with
    | {| completion := Normal a; final := c1; trace := t1 |} =>
        match k a c1 with
        | {| completion := x; final := c2; trace := t2 |} =>
            {| completion := x; final := c2; trace := t1 ++ t2 |}
        end
    | {| completion := Abrupt e; final := c1; trace := t1 |} =>
        {| completion := Abrupt e; final := c1; trace := t1 |}
    end.

(** [m.catch(h)] *)
Definition catch {A} (m : M A) (h : Thrown -> M A) : M A :=
  fun c =>
    match m c with
    | {| completion := Normal a; final := c1; trace := t1 |} =>
        {| completion := Normal a; final := c1; trace := t1 |}
    | {| completion := Abrupt e; final := c1; trace := t1 |} =>
        match h e c1 with
        | {| completion := x; final := c2; trace := t2 |} =>
            {| completion := x; final := c2; trace := t1 ++ t2 |}
        end
    end.

Definition get : M DevWorkspaceClient :=
  fun c => {| completion := Normal c; final := c; trace := [] |}.

Definition modify (f : DevWorkspaceClient -> DevWorkspaceClient) : M unit :=
  fun c => {| completion := Normal tt; final := f c; trace := [] |}.

Definition emit (e : Effect) : M unit :=
  fun c => {| completion := Normal tt; final := c; trace := [e] |}.

(** [await p], for a promise [p] of an external collaborator. *)
Definition await {A} (p : Outcome A) : M A :=
  match p with
  | Resolved a => ret a
  | Rejects reason => throw (Rejection reason)
  end.

Notation "x <- m ;; k" := (bind m (fun x => k))
  (at level 100, m at next level, right associativity).
Notation "m ;;; k" := (bind m (fun _ => k))
  (at level 100, right associativity).

Definition liftC {A} (r : Completion A) : M A :=
  match r with
  | Normal a => ret a
  | Abrupt e => throw e
  end.

(** ** Helpers of the JavaScript runtime *)

(** The narrowing of [if (v)] on a [string | undefined]: the string, when it
    is truthy. *)
Definition if_truthy (v : option string) : option string :=
  if Js.truthy v then v else None.

(** [Array.prototype.indexOf]; [None] stands for [-1]. *)
Fixpoint indexOf (x : string) (l : list string) : option nat :=
  match l with
  | [] => None
  | y :: l' => if bool_decide (y = x) then Some 0 else S <$> indexOf x l'
  end.

(** [emitter.on(eventName, callback)] *)
Definition emitter_on (eventName : string) (callback : nat) (e : EventEmitter)
    : EventEmitter :=
  <[eventName := default [] (e !! eventName) ++ [callback]]> e.

(** [emitter.removeAllListeners(eventName)] *)
Definition emitter_removeAllListeners (eventName : string) (e : EventEmitter)
    : EventEmitter :=
  delete eventName e.

(** [emitter.emit(eventName)]: the registered listeners are called in
    registration order. *)
Definition emitter_emit (eventName : string) : M unit :=
  fun c =>
    {| completion := Normal tt; final := c;
       trace := FailedListenerCall <$>
                  default [] (webSocketEventEmitter c !! eventName) |}.

(** The message [getSubscribeMessage] builds, once the resource version is
    known. *)
Definition subscribeMessage (namespace : string) (rv : option string)
    (channel : string) : SubscribeMessage :=
  {| request := "SUBSCRIBE";
     params := {| params_namespace := namespace; resourceVersion := rv |};
     channel := channel |}.

(** The patch [changeWorkspaceStatus] sends. *)
Definition startedPatch (started : bool) : list devfileApi.IPatch :=
  [ {| devfileApi.op := "replace"; devfileApi.path := "/spec/started";
       devfileApi.value := Js.Boolean started |} ].

(** ** Reading a trace *)

(** The updates handed to [updateDevWorkspaceStatus], in order. *)
Definition status_calls (t : list Effect) : list IStatusUpdate :=
  omap (fun e => match e with
                 | UpdateDevWorkspaceStatus _ u => Some u
                 | _ => None
                 end) t.

(** The id lists handed to [updateDeletedDevWorkspaces], in order. *)
Definition deleted_calls (t : list Effect) : list (list string) :=
  omap (fun e => match e with
                 | UpdateDeletedDevWorkspaces _ ids => Some ids
                 | _ => None
                 end) t.

(** The alerts shown, in order. *)
Definition alerts (t : list Effect) : list AlertItem :=
  omap (fun e => match e with
                 | ShowAlert a => Some a
                 | _ => None
                 end) t.

(** The subscribe requests sent to the transport, in order. *)
Definition subscribe_requests (t : list Effect) : list SubscribeMessage :=
  omap (fun e => match e with
                 | WsSubscribe msg => Some msg
                 | _ => None
                 end) t.

(** The calls that reach the WebSocket transport. *)
Definition is_transport_call (e : Effect) : bool :=
  match e with
  | WsConnect | WsSubscribe _ | WsAddListener _ _ => true
  | _ => false
  end.

Definition transport_calls (t : list Effect) : list Effect :=
  filter (fun e => is_transport_call e = true) t.

(** ** Instances of the imported helpers, for the examples *)

Module Sample.

(** An identifier helper: the id the controller assigned, else the uid. *)
Definition getId (dw : devfileApi.DevWorkspace) : string :=
  match devfileApi.status dw with
  | Some st => default (devfileApi.uid (devfileApi.metadata dw))
                       (devfileApi.devworkspaceId st)
  | None => devfileApi.uid (devfileApi.metadata dw)
  end.

(** A status helper: the phase when it is a string. *)
Definition getStatus (dw : devfileApi.DevWorkspace) : option string :=
  match devfileApi.status_phase dw with
  | Js.Str p => Some p
  | _ => None
  end.

Definition prop (k : string) (v : Js.unknown) : Js.unknown :=
  match v with
  | Js.Object props =>
      match list_find (fun p => fst p = k) props with
      | Some (_, (_, x)) => x
      | None => Js.Undefined
      end
  | _ => Js.Undefined
  end.

Definition str (v : Js.unknown) : option string :=
  match v with
  | Js.Str s => Some s
  | _ => None
  end.

(** A shape check: an object of kind DevWorkspace whose metadata carries
    string name, namespace and uid. *)
Definition isDevWorkspace (v : Js.unknown) : option devfileApi.DevWorkspace :=
  match prop "kind" v with
  | Js.Str "DevWorkspace" =>
      n ← str (prop "name" (prop "metadata" v));
      ns ← str (prop "namespace" (prop "metadata" v));
      u ← str (prop "uid" (prop "metadata" v));
      Some {| devfileApi.metadata :=
                {| devfileApi.name := n; devfileApi.namespace := ns;
                   devfileApi.uid := u |};
              devfileApi.status :=
                match prop "status" v with
                | Js.Object _ =>
                    Some {| devfileApi.phase := prop "phase" (prop "status" v);
                            devfileApi.message :=
                              str (prop "message" (prop "status" v));
                            devfileApi.mainUrl :=
                              str (prop "mainUrl" (prop "status" v));
                            devfileApi.devworkspaceId :=
                              str (prop "devworkspaceId" (prop "status" v)) |}
                | _ => None
                end |}
  | _ => None
  end.

(** A workspace [id] of namespace [ns] with the given phase and message. *)
Definition workspace (ns id : string) (ph : Js.unknown) (msg : option string)
    : devfileApi.DevWorkspace :=
  {| devfileApi.metadata :=
       {| devfileApi.name := id; devfileApi.namespace := ns;
          devfileApi.uid := id |};
     devfileApi.status :=
       Some {| devfileApi.phase := ph; devfileApi.message := msg;
               devfileApi.mainUrl := None;
               devfileApi.devworkspaceId := Some id |} |}.

(** The same workspace as the payload of a channel event. *)
Definition event (ns id : string) (ph : Js.unknown) (msg : Js.unknown)
    : Js.unknown :=
  Js.Object
    [ ("kind", Js.Str "DevWorkspace");
      ("metadata",
       Js.Object [ ("name", Js.Str id); ("namespace", Js.Str ns);
                   ("uid", Js.Str id) ]);
      ("status",
       Js.Object [ ("phase", ph); ("message", msg);
                   ("devworkspaceId", Js.Str id) ]) ].

Definition subscriber1 : Subscriber :=
  {| namespace := "ns1"; callbacks := {| callbacksRef := 1 |} |}.

Definition cbs1 : Callbacks := callbacks subscriber1.

(** An environment in which every awaited call resolves. *)
Definition getResourceVersion (cbs : Callbacks) (chan : string)
    : Outcome (option string) := Resolved (Some "42").
Definition wsSubscribe (msg : SubscribeMessage) : Outcome unit := Resolved tt.
Definition patchWorkspace (ns name : string) (patch : list devfileApi.IPatch)
    : Outcome devfileApi.DevWorkspace :=
  Resolved (workspace ns name (Js.Str "Stopped") None).

End Sample.

(** ** The devfile stringifier (services/helpers/editor) *)

Module editor.

Definition sortOrder : list string :=
  [ "apiVersion"; "schemaVersion"; "metadata"; "attributes"; "projects";
    "components"; "commands" ].

(** The comparator handed to the YAML dumper: [-1], [0] or [1]. *)
Definition sortKeys (key1 key2 : string) : Z :=
  let index1 := indexOf key1 sortOrder in
  let index2 := indexOf key2 sortOrder in
  match index1, index2 with
  | None, None => 0
  | None, Some _ => 1
  | Some _, None => -1
  | Some index1, Some index2 =>
      if bool_decide (index1 < index2)%nat then -1
      else if bool_decide (index2 < index1)%nat then 1
      else 0
  end%Z.

End editor.

(** ** Further values of the runtime and of the backend client *)

(** Truthiness of a value of type [unknown] (numbers are integral here). *)
Definition truthy_unknown (v : Js.unknown) : bool :=
  match v with
  | Js.Undefined | Js.Null => false
  | Js.Boolean b => b
  | Js.Number n => negb (n =? 0)%Z
  | Js.Str s => Js.truthy (Some s)
  | Js.Object _ => true
  end.

(** [v === s], for a string [s]. *)
Definition strict_equals_string (v : Js.unknown) (s : string) : bool :=
  match v with
  | Js.Str p => bool_decide (p = s)
  | _ => false
  end.

(** The [CloseEvent] of the transport: the close code, an unsigned short,
    and the reason. *)
Record CloseEvent : Type := {
  code : N;
  reason : string;
}.

(** The event as the console receives it. *)
Definition CloseEvent_value (event : CloseEvent) : Js.unknown :=
  Js.Object [ ("code", Js.Number (Z.of_N (code event)));
              ("reason", Js.Str (reason event)) ].

(** The requests of the methods that only read from the backend
    ([DwApi.listWorkspacesInNamespace], [DwApi.getWorkspaceByName]) and the
    pause [delay()] between two polls; the promise of a pause is a timer's
    and is taken to resolve. *)
Inductive Request : Type :=
| ListWorkspacesInNamespace (ns : string)
| GetWorkspaceByName (ns name : string)
| Delay.

(** A method that reads from the backend: how it completes, and the
    requests it made, in order. *)
Definition Fetch (A : Type) : Type := (Completion A * list Request)%type.

(** [requests] made before the rest of a method ran. *)
Definition after_requests {A} (requests : list Request) (r : Fetch A)
    : Fetch A :=
  (fst r, requests ++ snd r).

Definition maxStatusAttempts : nat := 10.

Definition is_poll (q : Request) : bool :=
  match q with
  | GetWorkspaceByName _ _ => true
  | _ => false
  end.

Definition is_pause (q : Request) : bool :=
  match q with
  | Delay => true
  | _ => false
  end.

(** The number of [DwApi.getWorkspaceByName] requests among [t]. *)
Definition polls (t : list Request) : nat :=
  length (filter (fun q => is_poll q = true) t).

(** The number of pauses among [t]. *)
Definition pauses (t : list Request) : nat :=
  length (filter (fun q => is_pause q = true) t).

(** The failure listeners called, in order. *)
Definition failed_listener_calls (t : list Effect) : list nat :=
  omap (fun e => match e with
                 | FailedListenerCall callback => Some callback
                 | _ => None
                 end) t.

(** The channel listeners handed to the transport, in order. *)
Definition listener_registrations (t : list Effect)
    : list (string * Listener) :=
  omap (fun e => match e with
                 | WsAddListener chan l => Some (chan, l)
                 | _ => None
                 end) t.

(** The lists handed to [updateAddedDevWorkspaces], in order. *)
Definition added_calls (t : list Effect)
    : list (list devfileApi.DevWorkspace) :=
  omap (fun e => match e with
                 | UpdateAddedDevWorkspaces _ added => Some added
                 | _ => None
                 end) t.

(** ** Devfile normalisation (store/FactoryResolver/normalizeDevfileV2) *)

Module JsObject.

(** The own enumerable properties of a plain object, in insertion order. *)
Abbreviation props := (list (string * Js.unknown)).

(** [o[k]] *)
Fixpoint get (k : string) (o : props) : Js.unknown :=
  match o with
  | [] => Js.Undefined
  | (k', v) :: o' => if bool_decide (k' = k) then v else get k o'
  end.

(** [o[k] = v] *)
Fixpoint set (k : string) (v : Js.unknown) (o : props) : props :=
  match o with
  | [] => [(k, v)]
  | (k', v') :: o' =>
      if bool_decide (k' = k) then (k', v) :: o' else (k', v') :: set k v o'
  end.

(** [Object.keys(o)] *)
Definition keys (o : props) : list string := fst <$> o.

End JsObject.

Definition DEVWORKSPACE_DEVFILE_SOURCE : string :=
  "che.eclipse.org/devfile-source".

Definition DEVWORKSPACE_METADATA_ANNOTATION : string :=
  "dw.metadata.annotations".

Module devfile.

Record ScmInfo : Type := {
  clone_url : string;
  branch : option string;
}.

(** The fields of the [FactoryResolver] object that the normalisation
    reads. *)
Record FactoryResolver : Type := {
  scm_info : option ScmInfo;
  source : option string;
}.

(** The metadata of a devfile; [md_others] are the fields the
    normalisation does not read. *)
Record DevfileMetadata : Type := {
  name : option string;
  generateName : option string;
  attributes : option JsObject.props;
  md_others : JsObject.props;
}.

(** A devfile; a field that is [None] is a property the object does not
    have, and [others] are the properties the normalisation does not read. *)
Record Devfile : Type := {
  metadata : option DevfileMetadata;
  components : option (list JsObject.props);
  projects : option (list Js.unknown);
  others : JsObject.props;
}.

(** [{}] as [devfileApi.DevfileMetadata] *)
Definition emptyMetadata : DevfileMetadata :=
  {| name := None; generateName := None; attributes := None;
     md_others := [] |}.

Section normalize.

(** [getProjectName] (services/helpers/getProjectName) and [safeDump]
    (js-yaml) are imported. *)
Variable getProjectName : string -> string.
Variable safeDump : Js.unknown -> string.

(** The body of the [map] over the components: a component that is only a
    name gets an empty volume. *)
Definition addVolume (component : JsObject.props) : JsObject.props :=
  if bool_decide (length (JsObject.keys component) = 1)
     && truthy_unknown (JsObject.get "name" component) then
    JsObject.set "volume" (Js.Object []) component
  else component.

(** The default project, from the SCM information. *)
Definition defaultProject (scmInfo : ScmInfo) : Js.unknown :=
  let origin := clone_url scmInfo in
  let name := getProjectName origin in
  let revision := branch scmInfo in
  let git := [ ("remotes", Js.Object [ ("origin", Js.Str origin) ]) ] in
  let git :=
    match if_truthy revision with
    | Some revision =>
        JsObject.set "checkoutFrom"
          (Js.Object [ ("revision", Js.Str revision) ]) git
    | None => git
    end in
  Js.Object [ ("name", Js.Str name); ("git", Js.Object git) ].

(** The text stored as the source of the devfile. *)
Definition devfileSource (data : FactoryResolver) (location : string)
    : string :=
  match if_truthy (source data), scm_info data with
  | Some fileName, Some scmInfo =>
      match if_truthy (branch scmInfo) with
      | Some revision =>
          safeDump
            (Js.Object
               [ ("scm",
                  Js.Object [ ("repo", Js.Str (clone_url scmInfo));
                              ("revision", Js.Str revision);
                              ("fileName", Js.Str fileName) ]) ])
      | None =>
          safeDump
            (Js.Object
               [ ("scm",
                  Js.Object [ ("repo", Js.Str (clone_url scmInfo));
                              ("fileName", Js.Str fileName) ]) ])
      end
  | _, _ =>
      if Js.truthy (Some location) then
        safeDump
          (Js.Object [ ("url", Js.Object [ ("location", Js.Str location) ]) ])
      else EmptyString
  end.

(** [metadata.attributes[ANNOTATION][SOURCE] = devfileSource], after an
    empty object has been put where [attributes[ANNOTATION]] is falsy.
    The module is strict code: where the annotation attribute is a truthy
    value that is not an object the assignment throws a [TypeError],
    which is [None] here. *)
Definition setDevfileSource (text : string) (attributes : JsObject.props)
    : option JsObject.props :=
  let attributes :=
    if truthy_unknown (JsObject.get DEVWORKSPACE_METADATA_ANNOTATION attributes)
    then attributes
    else JsObject.set DEVWORKSPACE_METADATA_ANNOTATION (Js.Object [])
           attributes in
  match JsObject.get DEVWORKSPACE_METADATA_ANNOTATION attributes with
  | Js.Object annotation =>
      Some (JsObject.set DEVWORKSPACE_METADATA_ANNOTATION
              (Js.Object
                 (JsObject.set DEVWORKSPACE_DEVFILE_SOURCE (Js.Str text)
                    annotation))
              attributes)
  | _ => None
  end.

(** [normalizeDevfileV2]: the devfile it returns.  (The devfile passed in
    is updated in place as well; that is not modelled.) *)
Definition normalizeDevfileV2 (devfile : Devfile) (data : FactoryResolver)
    (location : string) (defaultComponents : list JsObject.props)
    : option Devfile :=
  let scmInfo := scm_info data in
  let components :=
    match components devfile with
    | None | Some [] => defaultComponents
    | Some components => components
    end in
  let components := addVolume <$> components in
  let projects :=
    match projects devfile, scmInfo with
    | None, Some scmInfo => Some [defaultProject scmInfo]
    | Some [], Some scmInfo =>
        (* [Object.assign({ projects }, devfile)]: the devfile's own,
           empty, [projects] is copied over the default project *)
        Some []
    | projects, _ => projects
    end in
  let metadata := default emptyMetadata (metadata devfile) in
  attributes ← setDevfileSource (devfileSource data location)
                 (default [] (attributes metadata));
  let generateName :=
    if negb (Js.truthy (name metadata))
       && negb (Js.truthy (generateName metadata)) then
      Some (getProjectName
              (match scmInfo with
               | Some scmInfo =>
                   if Js.truthy (Some (clone_url scmInfo))
                   then clone_url scmInfo else location
               | None => location
               end))
    else generateName metadata in
  Some {| metadata :=
            Some {| name := name metadata;
                    generateName := generateName;
                    attributes := Some attributes;
                    md_others := md_others metadata |};
          components := Some components;
          projects := projects;
          others := others devfile |}.

End normalize.

(** [devfile.metadata.attributes], or no attribute at all. *)
Definition attributesOf (d : Devfile) : JsObject.props :=
  default [] (attributes (default emptyMetadata (metadata d))).

(** The components the normalisation starts from. *)
Definition baseComponents (d : Devfile)
    (defaultComponents : list JsObject.props) : list JsObject.props :=
  match components d with
  | None | Some [] => defaultComponents
  | Some components => components
  end.

End devfile.

(** ** Plugin names ([DevWorkspaceClient.normalizePluginName]) *)

(** Strings are taken in the ASCII range, one character a code unit. *)
Definition ascii_only (s : string) : Prop :=
  Forall (fun ch => (Ascii.nat_of_ascii ch < 128)%nat) (String.list_ascii_of_string s).

Fixpoint string_map (f : Ascii.ascii -> Ascii.ascii) (s : string) : string :=
  match s with
  | EmptyString => EmptyString
  | String ch s' => String (f ch) (string_map f s')
  end.

Definition space : Ascii.ascii := Ascii.ascii_of_nat 32.
Definition dash : Ascii.ascii := Ascii.ascii_of_nat 45.

Definition is_upper (ch : Ascii.ascii) : bool :=
  (65 <=? Ascii.nat_of_ascii ch)%nat && (Ascii.nat_of_ascii ch <=? 90)%nat.

(** [s.replaceAll(' ', '-')] *)
Definition replaceAll_space_dash (s : string) : string :=
  string_map (fun ch => if bool_decide (ch = space) then dash else ch) s.

(** [s.toLowerCase()], on ASCII text. *)
Definition toLowerCase (s : string) : string :=
  string_map (fun ch =>
                if is_upper ch
                then Ascii.ascii_of_nat (Ascii.nat_of_ascii ch + 32)
                else ch) s.

Definition normalizePluginName (pluginName workspaceId : string) : string :=
  toLowerCase (replaceAll_space_dash pluginName) +:+ "-" +:+ workspaceId.

(** ** The options accordion ([RepoOptionsAccordion]) *)

Module RepoOptionsAccordion.

Inductive AccordionId : Type := git_repo_options | advanced_options.

Global Instance AccordionId_eq_dec : EqDecision AccordionId.
Proof. solve_decision. Defined.

(** The part of the component state that [handleToggle] and the accordion
    items of [render] use. *)
Record State : Type := { expandedId : option AccordionId }.

Definition handleToggle (id : AccordionId) (state : State) : State :=
  {| expandedId :=
       if bool_decide (expandedId state = Some id) then None else Some id |}.

(** What [render] passes to an accordion item: [isExpanded] of its toggle
    and [isHidden] of its content. *)
Record Item : Type := { isExpanded : bool; isHidden : bool }.

Definition render_git_repo_options (state : State) : Item :=
  {| isExpanded := bool_decide (expandedId state = Some git_repo_options);
     isHidden := bool_decide (expandedId state ≠ Some git_repo_options) |}.

Definition render_advanced_options (state : State) : Item :=
  {| isExpanded := bool_decide (expandedId state = Some advanced_options);
     isHidden := bool_decide (expandedId state ≠ Some git_repo_options) |}.

End RepoOptionsAccordion.

(** ** Fetching pre-built resources ([CreatingStepFetchResources]) *)

Module FetchResources.

(** The static [fetchResourcesPromise] of the class, by what awaiting it
    gives. *)
Record Class : Type := { fetchResourcesPromise : Outcome unit }.

(** [static fetchResourcesPromise = Promise.resolve()] *)
Definition initial : Class := {| fetchResourcesPromise := Resolved tt |}.

Inductive StepEffect : Type := RequestResources (sourceUrl : string).

(** [runStep].  [present] is [devWorkspaceResources[sourceUrl]?.resources]
    read from the props before a request, [presentAfter] the same
    expression once an awaited request has resolved; [requestResources] is
    what the promise of [props.requestResources(sourceUrl)] settles to. *)
Definition runStep (requestResources : string -> Outcome unit)
    (sourceUrl : string) (present presentAfter : bool) (cls : Class)
    : Completion bool * Class * list StepEffect :=
  match fetchResourcesPromise cls with
  | Rejects _ => (Normal false, cls, [])
  | Resolved _ =>
      if negb present then
        let cls' :=
          {| fetchResourcesPromise := requestResources sourceUrl |} in
        match requestResources sourceUrl with
        | Rejects reason =>
            (Abrupt (Rejection reason), cls', [RequestResources sourceUrl])
        | Resolved _ =>
            if presentAfter then
              (Normal true, cls', [RequestResources sourceUrl])
            else
              (Abrupt (ThrowError "Failed to fetch pre-built resources"),
               cls', [RequestResources sourceUrl])
        end
      else (Normal true, cls, [])
  end.

(** Successive calls of [runStep], of any instances: each with its source
    URL and the two readings of its props. *)
Fixpoint runSteps (requestResources : string -> Outcome unit)
    (calls : list (string * bool * bool)) (cls : Class)
    : list (Completion bool) * Class * list StepEffect :=
  match calls with
  | [] => ([], cls, [])
  | (sourceUrl, present, presentAfter) :: rest =>
      let '(result, cls', effects) :=
        runStep requestResources sourceUrl present presentAfter cls in
      let '(results, cls'', effects') :=
        runSteps requestResources rest cls' in
      (result :: results, cls'', effects ++ effects')
  end.

End FetchResources.

(** ** Further instances, for the examples *)

Module Examples.

(** A web terminal check: by the name of the workspace. *)
Definition isWebTerminal (w : devfileApi.DevWorkspace) : bool :=
  bool_decide (devfileApi.name (devfileApi.metadata w) = "terminal").

(** A stopped workspace: a phase, and no main URL. *)
Definition stopped (ns name : string) : devfileApi.DevWorkspace :=
  Sample.workspace ns name (Js.Str "Stopped") None.

(** A running workspace with its main URL. *)
Definition running (ns name : string) : devfileApi.DevWorkspace :=
  {| devfileApi.metadata :=
       {| devfileApi.name := name; devfileApi.namespace := ns;
          devfileApi.uid := name |};
     devfileApi.status :=
       Some {| devfileApi.phase := Js.Str "RUNNING";
               devfileApi.message := None;
               devfileApi.mainUrl := Some "https://w1.example";
               devfileApi.devworkspaceId := Some name |} |}.

Definition listWorkspacesInNamespace (ns : string)
    : Outcome (list devfileApi.DevWorkspace * string) :=
  Resolved ([stopped ns "w1"; stopped ns "terminal"; stopped ns "w2"], "7").

(** A backend on which the workspace stays stopped. *)
Definition staysStopped (ns name : string) (k : nat)
    : Outcome devfileApi.DevWorkspace :=
  Resolved (stopped ns name).

(** A backend on which the workspace is running from the third request. *)
Definition startsUp (ns name : string) (k : nat)
    : Outcome devfileApi.DevWorkspace :=
  Resolved (if bool_decide (k < 2) then Sample.workspace ns name Js.Undefined None
            else running ns name).

Definition getProjectName (url : string) : string := "project".
Definition safeDump (v : Js.unknown) : string := "source".

Definition scm : devfile.ScmInfo :=
  {| devfile.clone_url := "https://git.example/project.git";
     devfile.branch := Some "main" |}.

Definition resolved : devfile.FactoryResolver :=
  {| devfile.scm_info := Some scm; devfile.source := Some "devfile.yaml" |}.

(** A devfile with a component that is only a name, an empty list of
    projects and no metadata. *)
Definition bare : devfile.Devfile :=
  {| devfile.metadata := None;
     devfile.components := Some [ [ ("name", Js.Str "tools") ] ];
     devfile.projects := Some [];
     devfile.others := [ ("schemaVersion", Js.Str "2.2.0") ] |}.

(** The same devfile without a [projects] property. *)
Definition bare_without_projects : devfile.Devfile :=
  {| devfile.metadata := None;
     devfile.components := Some [ [ ("name", Js.Str "tools") ] ];
     devfile.projects := None;
     devfile.others := [ ("schemaVersion", Js.Str "2.2.0") ] |}.

Definition rejecting (sourceUrl : string) : Outcome unit :=
  Rejects "503".

End Examples.

(** ** The client *)

Section Client.

Set Default Proof Using "Type".

(** [isDevWorkspace] (devfileApi), [getId] and [getStatus]
    (workspace-adapter/helper) are imported by the client.  The type guard
    is taken with the typed view it licenses: [Some dw] when it accepts. *)
Variable isDevWorkspace : Js.unknown -> option devfileApi.DevWorkspace.
Variable getId : devfileApi.DevWorkspace -> string.
Variable getStatus : devfileApi.DevWorkspace -> option string.

(** What the awaited external calls settle to: the subscriber's
    [getResourceVersion] (by the channel whose message is being built),
    [websocketClient.subscribe], [websocketClient.connect] and
    [DwApi.patchWorkspace]. *)
Variable getResourceVersion : Callbacks -> string -> Outcome (option string).
Variable wsSubscribe : SubscribeMessage -> Outcome unit.
Variable wsConnect : Outcome unit.
Variable patchWorkspace :
  string -> string -> list devfileApi.IPatch -> Outcome devfileApi.DevWorkspace.

Definition showAlert (alert : AlertItem) : M unit := emit (ShowAlert alert).

(** [createStatusUpdate]: the update object is stored in the cache and
    returned; both are the same object.  The phase is used when
    [typeof phase === 'string'], that is when it is a [Js.Str]
    (lemma [typeof_string]). *)
Definition createStatusUpdate (devworkspace : devfileApi.DevWorkspace)
    : M IStatusUpdate :=
  let namespace := devfileApi.namespace (devfileApi.metadata devworkspace) in
  let workspaceId := getId devworkspace in
  let status :=
    match devfileApi.status_phase devworkspace with
    | Js.Str p => p
    | _ => DevWorkspaceStatus.STARTING
    end in
  c <- get ;;
  match previousItems c !! namespace with
  | Some prevWorkspace =>
      let prevStatus := prevWorkspace !! workspaceId in
      let newUpdate :=
        {| error := None; message := None;
           workspaceId := workspaceId;
           status := Some status;
           prevStatus := prevStatus ≫= status_of |} in
      modify (set_previousItems
                (<[namespace := <[workspaceId := newUpdate]> prevWorkspace]>
                   (previousItems c))) ;;;
      ret newUpdate
  | None =>
      let newStatus :=
        {| error := None; message := None;
           workspaceId := workspaceId;
           status := Some status;
           prevStatus := Some status |} in
      let newStatusMap : gmap string IStatusUpdate :=
        <[workspaceId := newStatus]> ∅ in
      modify (set_previousItems
                (<[namespace := newStatusMap]> (previousItems c))) ;;;
      ret newStatus
  end.

(** [statusUpdate.message = statusMessage], on the object
    [createStatusUpdate] has just cached under the workspace's namespace and
    id: the assignment is seen through the cache as well. *)
Definition assign_message (devworkspace : devfileApi.DevWorkspace)
    (statusMessage : string) (statusUpdate : IStatusUpdate) : M IStatusUpdate :=
  modify (fun c =>
    set_previousItems
      (alter (alter (set_message statusMessage) (getId devworkspace))
             (devfileApi.namespace (devfileApi.metadata devworkspace))
             (previousItems c)) c) ;;;
  ret (set_message statusMessage statusUpdate).

Definition onModified : string := "onModified".
Definition onAdded : string := "onAdded".
Definition onDeleted : string := "onDeleted".

(** The listener [subscribe] registers on the onModified channel. *)
Definition onModifiedListener (callbacks : Callbacks)
    (devworkspace : Js.unknown) : M unit :=
  match isDevWorkspace devworkspace with
  | None =>
      let title := "WebSocket channel " +:+ Js.dquote +:+ onModified
        +:+ Js.dquote
        +:+ " received object that is not a devWorkspace, skipping it." in
      let key := onModified +:+ "-websocket-channel" in
      emit (ConsoleWarn title [devworkspace]) ;;;
      showAlert {| key := key; variant := warning; title := title |}
  | Some dw =>
      statusUpdate <- createStatusUpdate dw ;;
      let statusMessage := devfileApi.status_message dw in
      statusUpdate <-
        match if_truthy statusMessage with
        | Some statusMessage =>
            let workspaceId := getId dw in
            c <- get ;;
            let lastMessage := lastDevWorkspaceLog c !! workspaceId in
            if bool_decide (lastMessage ≠ Some statusMessage) then
              statusUpdate <- assign_message dw statusMessage statusUpdate ;;
              modify (fun c =>
                set_lastDevWorkspaceLog
                  (<[workspaceId := statusMessage]> (lastDevWorkspaceLog c)) c) ;;;
              ret statusUpdate
            else ret statusUpdate
        | None => ret statusUpdate
        end ;;
      emit (UpdateDevWorkspaceStatus callbacks statusUpdate)
  end.

(** The listener [subscribe] registers on the onAdded channel. *)
Definition onAddedListener (callbacks : Callbacks)
    (devworkspace : Js.unknown) : M unit :=
  match isDevWorkspace devworkspace with
  | None =>
      let title := "WebSocket channel " +:+ Js.dquote +:+ onAdded
        +:+ Js.dquote
        +:+ " received object that is not a devWorkspace, skipping it." in
      let key := onAdded +:+ "-websocket-channel" in
      emit (ConsoleWarn title [devworkspace]) ;;;
      showAlert {| key := key; variant := warning; title := title |}
  | Some dw => emit (UpdateAddedDevWorkspaces callbacks [dw])
  end.

(** The listener [subscribe] registers on the onDeleted channel.  Past the
    [typeof] test the payload is a string; the last case is not reached. *)
Definition onDeletedListener (callbacks : Callbacks)
    (maybeWorkspaceId : Js.unknown) : M unit :=
  if bool_decide (Js.typeof maybeWorkspaceId ≠ "string") then
    let title := "WebSocket channel " +:+ Js.dquote +:+ onDeleted
      +:+ Js.dquote +:+ " received value is not a string, skipping it." in
    let key := onDeleted +:+ "-websocket-channel" in
    emit (ConsoleWarn title
            [maybeWorkspaceId; Js.Str (Js.typeof maybeWorkspaceId)]) ;;;
    showAlert {| key := key; variant := warning; title := title |}
  else
    match maybeWorkspaceId with
    | Js.Str workspaceId =>
        emit (UpdateDeletedDevWorkspaces callbacks [workspaceId])
    | _ => ret tt
    end.

(** What the transport does with an event of a channel: it calls the
    listener registered for it. *)
Definition runListener (l : Listener) (payload : Js.unknown) : M unit :=
  match l with
  | ModifiedListener cbs => onModifiedListener cbs payload
  | AddedListener cbs => onAddedListener cbs payload
  | DeletedListener cbs => onDeletedListener cbs payload
  end.

Definition getSubscribeMessage (namespace : string) (callbacks : Callbacks)
    (channel : string) : M SubscribeMessage :=
  emit (GetResourceVersion callbacks) ;;;
  rv <- await (getResourceVersion callbacks channel) ;;
  ret (subscribeMessage namespace rv channel).

(** [websocketClient.subscribe(message)], awaited. *)
Definition websocketClient_subscribe (msg : SubscribeMessage) : M unit :=
  emit (WsSubscribe msg) ;;;
  await (wsSubscribe msg).

Definition websocketClient_addListener (channel : string) (l : Listener)
    : M unit :=
  emit (WsAddListener channel l).

Definition subscribe : M unit :=
  c <- get ;;
  match subscriber c with
  | None => throw (ThrowString "Error: Subscriber does not set.")
  | Some s =>
      let namespace := namespace s in
      let callbacks := callbacks s in
      msg <- getSubscribeMessage namespace callbacks onModified ;;
      websocketClient_subscribe msg ;;;
      websocketClient_addListener onModified (ModifiedListener callbacks) ;;;
      msg <- getSubscribeMessage namespace callbacks onAdded ;;
      websocketClient_subscribe msg ;;;
      websocketClient_addListener onAdded (AddedListener callbacks) ;;;
      msg <- getSubscribeMessage namespace callbacks onDeleted ;;
      websocketClient_subscribe msg ;;;
      websocketClient_addListener onDeleted (DeletedListener callbacks)
  end.

Definition subscribeToNamespace (s : Subscriber) : M unit :=
  modify (set_subscriber (Some s)) ;;;
  emit WsConnect ;;;
  await wsConnect.

(** The [onDidWebSocketFailing] handler the constructor gives the transport. *)
Definition onDidWebSocketFailing (websocketContext : string) : M unit :=
  modify (fun c =>
    set_failingWebSockets (_failingWebSockets c ++ [websocketContext]) c) ;;;
  emitter_emit webSocketEventName.

(** The [onDidWebSocketOpen] handler the constructor gives the transport.
    The promise of [subscribe] is not awaited by the handler; no other
    event is taken to interleave with it, so it is run to its settlement
    here, its rejection going to the [catch]. *)
Definition onDidWebSocketOpen (websocketContext : string) : M unit :=
  c <- get ;;
  match indexOf websocketContext (_failingWebSockets c) with
  | Some index =>
      modify (fun c =>
        set_failingWebSockets (delete index (_failingWebSockets c)) c) ;;;
      emitter_emit webSocketEventName
  | None => ret tt
  end ;;;
  catch subscribe (fun e =>
    let key := "websocket-subscribe-error" in
    let title := "Websocket '" +:+ websocketContext
      +:+ "' subscribe Error: " +:+ render e in
    showAlert {| key := key; variant := danger; title := title |}).

Definition onWebSocketFailed (callback : nat) : M unit :=
  modify (fun c =>
    set_webSocketEventEmitter
      (emitter_on webSocketEventName callback (webSocketEventEmitter c)) c).

Definition removeWebSocketFailedListener : M unit :=
  modify (fun c =>
    set_webSocketEventEmitter
      (emitter_removeAllListeners webSocketEventName (webSocketEventEmitter c))
      c) ;;;
  modify (set_failingWebSockets []).

(** The [failingWebSockets] getter: a copy of the list. *)
Definition failingWebSockets (c : DevWorkspaceClient) : list string :=
  _failingWebSockets c.

Definition checkForDevWorkspaceError (devworkspace : devfileApi.DevWorkspace)
    : Completion unit :=
  let currentPhase := getStatus devworkspace in
  if Js.truthy currentPhase
     && bool_decide (currentPhase = Some DevWorkspaceStatus.FAILED) then
    match if_truthy (devfileApi.status_message devworkspace) with
    | Some message => Abrupt (ThrowError message)
    | None =>
        Abrupt (ThrowError
                  "Unknown error occured when trying to process the devworkspace")
    end
  else Normal tt.

Definition changeWorkspaceStatus (namespace name : string) (started : bool)
    : M devfileApi.DevWorkspace :=
  let patch := startedPatch started in
  emit (PatchWorkspace namespace name patch) ;;;
  changedWorkspace <- await (patchWorkspace namespace name patch) ;;
  (if negb started then
     modify (fun c =>
       set_lastDevWorkspaceLog
         (delete (getId changedWorkspace) (lastDevWorkspaceLog c)) c)
   else ret tt) ;;;
  liftC (checkForDevWorkspaceError changedWorkspace) ;;;
  ret changedWorkspace.

(** The phase [createStatusUpdate] reports. *)
Definition reported_status (devworkspace : devfileApi.DevWorkspace) : string :=
  match devfileApi.status_phase devworkspace with
  | Js.Str p => p
  | _ => DevWorkspaceStatus.STARTING
  end.

(** The cache entry of a workspace id in a namespace. *)
Definition cached (c : DevWorkspaceClient) (namespace workspaceId : string)
    : option IStatusUpdate :=
  previousItems c !! namespace ≫= (fun m => m !! workspaceId).

(** A run of modified events through the listener, one after the other;
    the traces are concatenated. *)
Fixpoint deliverModified (callbacks : Callbacks) (events : list Js.unknown)
    : M unit :=
  match events with
  | [] => ret tt
  | ev :: rest =>
      onModifiedListener callbacks ev ;;; deliverModified callbacks rest
  end.

(** A run of workspaces through [createStatusUpdate]; the updates are
    returned in order. *)
Fixpoint createStatusUpdates (dws : list devfileApi.DevWorkspace)
    : M (list IStatusUpdate) :=
  match dws with
  | [] => ret []
  | dw :: rest =>
      u <- createStatusUpdate dw ;;
      us <- createStatusUpdates rest ;;
      ret (u :: us)
  end.

(** *** Further methods of the client *)

(** [isWebTerminal] (helpers/devworkspace) is imported by the client; the
    two reading calls of the backend client settle as follows, the second by
    the number of the request ([0] for the first one of a call of
    [getWorkspaceByName]). *)
Variable isWebTerminal : devfileApi.DevWorkspace -> bool.
Variable listWorkspacesInNamespace :
  string -> Outcome (list devfileApi.DevWorkspace * string).
Variable DwApi_getWorkspaceByName :
  string -> string -> nat -> Outcome devfileApi.DevWorkspace.

(** The [onDidWebSocketClose] handler the constructor gives the transport. *)
Definition onDidWebSocketClose (event : CloseEvent) : M unit :=
  if negb (code event =? 1011)%N && Js.truthy (Some (reason event)) then
    let key := "websocket-close-code-" +:+ pretty (code event) in
    showAlert {| key := key; variant := warning;
                 title := "Failed to establish WebSocket to server: "
                          +:+ reason event |}
  else emit (ConsoleWarn "WebSocket close" [CloseEvent_value event]).

(** The loop of [getAllWorkspaces] over the listed items. *)
Fixpoint collectWorkspaces (items workspaces : list devfileApi.DevWorkspace)
    : list devfileApi.DevWorkspace :=
  match items with
  | [] => workspaces
  | item :: rest =>
      collectWorkspaces rest
        (if negb (isWebTerminal item) then workspaces ++ [item]
         else workspaces)
  end.

Definition getAllWorkspaces (defaultNamespace : string)
    : Fetch (list devfileApi.DevWorkspace * string) :=
  after_requests [ListWorkspacesInNamespace defaultNamespace]
    match listWorkspacesInNamespace defaultNamespace with
    | Resolved (items, resourceVersion) =>
        (Normal (collectWorkspaces items [], resourceVersion), [])
    | Rejects reason => (Abrupt (Rejection reason), [])
    end.

(** [!workspace.status || !workspace.status.phase
     || !workspace.status.mainUrl] *)
Definition statusIncomplete (workspace : devfileApi.DevWorkspace) : bool :=
  match devfileApi.status workspace with
  | None => true
  | Some st =>
      negb (truthy_unknown (devfileApi.phase st))
      || negb (Js.truthy (devfileApi.mainUrl st))
  end.

(** What [getWorkspaceByName] does with the workspace the loop ends on. *)
Definition checkRetrieved (namespace workspaceName : string)
    (workspace : devfileApi.DevWorkspace)
    : Completion devfileApi.DevWorkspace :=
  match checkForDevWorkspaceError workspace with
  | Abrupt e => Abrupt e
  | Normal _ =>
      let noStatus :=
        Abrupt (ThrowError
          ("Could not retrieve devworkspace status information from "
           +:+ workspaceName +:+ " in namespace " +:+ namespace)) in
      match devfileApi.status workspace with
      | None => noStatus
      | Some workspaceStatus =>
          if negb (truthy_unknown (devfileApi.phase workspaceStatus)) then
            noStatus
          else if strict_equals_string (devfileApi.phase workspaceStatus)
                    DevWorkspaceStatus.RUNNING
                  && negb (Js.truthy (devfileApi.mainUrl workspaceStatus)) then
            Abrupt (ThrowError
              "Could not retrieve mainUrl for the running workspace")
          else Normal workspace
      end
  end.

(** The [while] loop of [getWorkspaceByName] and what follows it.  The loop
    runs while [attempted < maxStatusAttempts]; [fuel] bounds the iterations
    left, and [None] is an exhausted bound. *)
Fixpoint pollStatus (fuel : nat) (namespace workspaceName : string)
    (attempted : nat) (workspace : devfileApi.DevWorkspace)
    : option (Fetch devfileApi.DevWorkspace) :=
  if statusIncomplete workspace
     && bool_decide (attempted < maxStatusAttempts) then
    match fuel with
    | 0 => None
    | S fuel =>
        match DwApi_getWorkspaceByName namespace workspaceName (S attempted) with
        | Rejects reason =>
            Some (Abrupt (Rejection reason),
                  [GetWorkspaceByName namespace workspaceName])
        | Resolved workspace =>
            match checkForDevWorkspaceError workspace with
            | Abrupt e =>
                Some (Abrupt e, [GetWorkspaceByName namespace workspaceName])
            | Normal _ =>
                after_requests
                  [GetWorkspaceByName namespace workspaceName; Delay]
                <$> pollStatus fuel namespace workspaceName (S attempted)
                      workspace
            end
        end
    end
  else Some (checkRetrieved namespace workspaceName workspace, []).

Definition getWorkspaceByName (namespace workspaceName : string)
    : option (Fetch devfileApi.DevWorkspace) :=
  match DwApi_getWorkspaceByName namespace workspaceName 0 with
  | Rejects reason =>
      Some (Abrupt (Rejection reason),
            [GetWorkspaceByName namespace workspaceName])
  | Resolved workspace =>
      after_requests [GetWorkspaceByName namespace workspaceName]
      <$> pollStatus maxStatusAttempts namespace workspaceName 0 workspace
  end.

(** The client and the listener calls after the bookkeeping of
    [onDidWebSocketOpen]. *)
Definition opened (websocketContext : string) (c : DevWorkspaceClient)
    : DevWorkspaceClient * list Effect :=
  match indexOf websocketContext (_failingWebSockets c) with
  | Some index =>
      (set_failingWebSockets (delete index (_failingWebSockets c)) c,
       FailedListenerCall <$>
         default [] (webSocketEventEmitter c !! webSocketEventName))
  | None => (c, [])
  end.

Definition subscribeErrorAlert (websocketContext : string) (e : Thrown)
    : AlertItem :=
  {| key := "websocket-subscribe-error"; variant := danger;
     title := "Websocket '" +:+ websocketContext
              +:+ "' subscribe Error: " +:+ render e |}.

(** The cache with [u] stored for the workspace [workspaceId] of
    [namespace]. *)
Definition cache_insert (namespace workspaceId : string) (u : IStatusUpdate)
    (items : gmap string (gmap string IStatusUpdate))
    : gmap string (gmap string IStatusUpdate) :=
  <[namespace := <[workspaceId := u]> (default ∅ (items !! namespace))]> items.

(** *** Histories of the client *)

(** What can happen to a client: a call of one of its methods, a callback
    of the transport, an event on a channel handled by a listener. *)
Inductive Op : Type :=
| SubscribeToNamespace (s : Subscriber)
| WebSocketFailing (websocketContext : string)
| WebSocketOpen (websocketContext : string)
| WebSocketClose (event : CloseEvent)
| OnWebSocketFailed (callback : nat)
| RemoveWebSocketFailedListener
| ChangeWorkspaceStatus (ns name : string) (started : bool)
| ChannelEvent (l : Listener) (payload : Js.unknown).

Definition perform (op : Op) : M unit :=
  match op with
  | SubscribeToNamespace s => subscribeToNamespace s
  | WebSocketFailing websocketContext =>
      onDidWebSocketFailing websocketContext
  | WebSocketOpen websocketContext => onDidWebSocketOpen websocketContext
  | WebSocketClose event => onDidWebSocketClose event
  | OnWebSocketFailed callback => onWebSocketFailed callback
  | RemoveWebSocketFailedListener => removeWebSocketFailedListener
  | ChangeWorkspaceStatus ns name started =>
      changeWorkspaceStatus ns name started ;;; ret tt
  | ChannelEvent l payload => runListener l payload
  end.

(** The client after a history; an operation that throws leaves the
    client as it was at the throw. *)
Definition history (ops : list Op) (c : DevWorkspaceClient)
    : DevWorkspaceClient :=
  foldl (fun c op => final (perform op c)) c ops.

(** The operation is a modified event for the workspace [workspaceId] of
    [namespace]. *)
Definition observes (namespace workspaceId : string) (op : Op) : Prop :=
  exists cbs payload dw,
    op = ChannelEvent (ModifiedListener cbs) payload
    /\ isDevWorkspace payload = Some dw
    /\ devfileApi.namespace (devfileApi.metadata dw) = namespace
    /\ getId dw = workspaceId.

(** What every reachable client satisfies: a cached update sits under its
    own workspace id and has a status, and a recorded last message is not
    empty. *)
Definition well_formed (c : DevWorkspaceClient) : Prop :=
  (forall namespace id u,
     cached c namespace id = Some u ->
     workspaceId u = id /\ is_Some (status u))
  /\ (forall id m,
        lastDevWorkspaceLog c !! id = Some m -> m ≠ EmptyString).

(** ** Properties *)

Ltac run := unfold bind, catch, ret, throw, get, modify, emit, liftC; simpl.

(** *** The status cache *)

Lemma typeof_string (v : Js.unknown) :
  Js.typeof v = "string" <-> exists s, v = Js.Str s.
Proof.
  split.
  - destruct v; simpl; try discriminate. eauto.
  - intros [s ->]. reflexivity.
Qed.

Lemma createStatusUpdate_normal (dw : devfileApi.DevWorkspace)
    (c : DevWorkspaceClient) :
  exists u, completion (createStatusUpdate dw c) = Normal u
    /\ trace (createStatusUpdate dw c) = []
    /\ status u = Some (reported_status dw)
    /\ workspaceId u = getId dw
    /\ message u = None
    /\ cached (final (createStatusUpdate dw c))
         (devfileApi.namespace (devfileApi.metadata dw)) (getId dw) = Some u.
Proof.
  unfold createStatusUpdate, cached. run.
  destruct (previousItems c !! _) as [prevWorkspace|] eqn:E; simpl;
    eexists; repeat split; simpl;
    rewrite lookup_insert_eq; simpl; by rewrite lookup_insert_eq.
Qed.

(** With an entry cached for the workspace id, [prevStatus] is the status of
    that entry. *)
Lemma createStatusUpdate_prev_cached (dw : devfileApi.DevWorkspace)
    (c : DevWorkspaceClient) (prev : IStatusUpdate) :
  cached c (devfileApi.namespace (devfileApi.metadata dw)) (getId dw) = Some prev ->
  exists u, completion (createStatusUpdate dw c) = Normal u
    /\ prevStatus u = status prev.
Proof.
  unfold createStatusUpdate, cached. run.
  destruct (previousItems c !! _) as [prevWorkspace|] eqn:E; simpl; [|done].
  intros ->. eexists. split; reflexivity.
Qed.

(** In a namespace never seen before, [prevStatus] is the current status. *)
Lemma createStatusUpdate_new_namespace (dw : devfileApi.DevWorkspace)
    (c : DevWorkspaceClient) :
  previousItems c !! devfileApi.namespace (devfileApi.metadata dw) = None ->
  exists u, completion (createStatusUpdate dw c) = Normal u
    /\ prevStatus u = status u.
Proof.
  unfold createStatusUpdate. run. intros ->. simpl.
  eexists. split; reflexivity.
Qed.

(** In a namespace seen before, a workspace id without an entry gets no
    [prevStatus]. *)
Lemma createStatusUpdate_new_in_known_namespace (dw : devfileApi.DevWorkspace)
    (c : DevWorkspaceClient) (prevWorkspace : gmap string IStatusUpdate) :
  previousItems c !! devfileApi.namespace (devfileApi.metadata dw)
    = Some prevWorkspace ->
  prevWorkspace !! getId dw = None ->
  exists u, completion (createStatusUpdate dw c) = Normal u
    /\ prevStatus u = None.
Proof.
  unfold createStatusUpdate. run. intros -> H. simpl. rewrite H.
  eexists. split; reflexivity.
Qed.

(** C10: a workspace whose [status.phase] is absent or is not a string is
    reported by [createStatusUpdate], and cached, with status STARTING. *)
Theorem createStatusUpdate_missing_phase_is_STARTING
    (dw : devfileApi.DevWorkspace) (c : DevWorkspaceClient) :
  Js.typeof (devfileApi.status_phase dw) ≠ "string" ->
  exists u, completion (createStatusUpdate dw c) = Normal u
    /\ status u = Some DevWorkspaceStatus.STARTING
    /\ cached (final (createStatusUpdate dw c))
         (devfileApi.namespace (devfileApi.metadata dw)) (getId dw) = Some u.
Proof.
  intros Hphase.
  destruct (createStatusUpdate_normal dw c) as (u & Hu & _ & Hs & _ & _ & Hc).
  exists u. split; [done|]. split; [|done].
  rewrite Hs. unfold reported_status.
  destruct (devfileApi.status_phase dw); try reflexivity.
  exfalso. apply Hphase. reflexivity.
Qed.

(** *** The channel listeners *)

(** C3: on the onDeleted channel, a payload that is not a string reaches
    [updateDeletedDevWorkspaces] zero times and raises exactly one alert, a
    warning keyed by the channel name; a string payload reaches the callback
    exactly once, as the singleton list of that id.  Neither throws nor
    changes the client. *)
Theorem onDeletedListener_dispatch (cbs : Callbacks) (payload : Js.unknown)
    (c : DevWorkspaceClient) :
  let r := onDeletedListener cbs payload c in
  (Js.typeof payload ≠ "string" ->
     deleted_calls (trace r) = []
     /\ (exists a, alerts (trace r) = [a]
           /\ key a = onDeleted +:+ "-websocket-channel"
           /\ variant a = warning)
     /\ completion r = Normal tt /\ final r = c)
  /\ (forall workspaceId, payload = Js.Str workspaceId ->
        trace r = [UpdateDeletedDevWorkspaces cbs [workspaceId]]
        /\ completion r = Normal tt /\ final r = c).
Proof.
  unfold onDeletedListener, showAlert. split.
  - intros Hty. rewrite bool_decide_eq_true_2 by done. run.
    repeat split. eexists. repeat split.
  - intros workspaceId ->. simpl. run. done.
Qed.

(** C4: on the onModified channel, a payload that fails [isDevWorkspace]
    reaches [updateDevWorkspaceStatus] zero times, leaves the status cache
    and the last-message map as they were, and does not throw. *)
Theorem onModifiedListener_rejects_malformed (cbs : Callbacks)
    (payload : Js.unknown) (c : DevWorkspaceClient) :
  isDevWorkspace payload = None ->
  let r := onModifiedListener cbs payload c in
  status_calls (trace r) = []
  /\ previousItems (final r) = previousItems c
  /\ lastDevWorkspaceLog (final r) = lastDevWorkspaceLog c
  /\ completion r = Normal tt.
Proof.
  intros Hguard. unfold onModifiedListener, showAlert. rewrite Hguard.
  run. done.
Qed.

(** What the onModified listener does with a workspace: one call of the
    status callback, whose message depends on the last message recorded. *)
Lemma onModifiedListener_valid (cbs : Callbacks) (payload : Js.unknown)
    (dw : devfileApi.DevWorkspace) (c : DevWorkspaceClient) :
  isDevWorkspace payload = Some dw ->
  let r := onModifiedListener cbs payload c in
  let log := lastDevWorkspaceLog c in
  exists u, trace r = [UpdateDevWorkspaceStatus cbs u]
    /\ completion r = Normal tt
    /\ status u = Some (reported_status dw)
    /\ workspaceId u = getId dw
    /\ match if_truthy (devfileApi.status_message dw) with
       | Some m =>
           if bool_decide (log !! getId dw = Some m)
           then message u = None /\ lastDevWorkspaceLog (final r) = log
           else message u = Some m
                /\ lastDevWorkspaceLog (final r) = <[getId dw := m]> log
       | None => message u = None /\ lastDevWorkspaceLog (final r) = log
       end.
Proof.
  intros Hguard. unfold onModifiedListener. rewrite Hguard.
  unfold createStatusUpdate, assign_message. run.
  destruct (if_truthy (devfileApi.status_message dw)) as [m|];
    [destruct (decide (lastDevWorkspaceLog c !! getId dw = Some m)) as [Hd|Hd]|];
    destruct (previousItems c !! _) as [prevWorkspace|] eqn:E; simpl.
  1,2: rewrite (bool_decide_eq_false_2 (_ ≠ _)) by (intros Hn; by apply Hn).
  3,4: rewrite (bool_decide_eq_true_2 (_ ≠ _)) by done.
  all: simpl; eexists; (do 4 (split; [reflexivity|])).
  1,2: rewrite bool_decide_eq_true_2 by done.
  3,4: rewrite bool_decide_eq_false_2 by done.
  all: split; reflexivity.
Qed.

(** C2, as the code has it: after any run of modified events, the listener
    forwards one update per workspace event; a status message identical to
    the last one recorded for the workspace id is not attached to it, and a
    non-empty message that differs from the last one recorded is attached
    and becomes the recorded one.  The empty message is never attached. *)
Theorem onModifiedListener_message_forwarding (cbs : Callbacks)
    (earlier : list Js.unknown) (c0 : DevWorkspaceClient)
    (payload : Js.unknown) (dw : devfileApi.DevWorkspace) (m : string) :
  isDevWorkspace payload = Some dw ->
  devfileApi.status_message dw = Some m ->
  let c := final (deliverModified cbs earlier c0) in
  let r := onModifiedListener cbs payload c in
  exists u, status_calls (trace r) = [u]
    /\ (lastDevWorkspaceLog c !! getId dw = Some m -> message u = None)
    /\ (m ≠ EmptyString ->
        lastDevWorkspaceLog c !! getId dw ≠ Some m ->
        message u = Some m
        /\ lastDevWorkspaceLog (final r) !! getId dw = Some m)
    /\ (m = EmptyString -> message u = None).
Proof.
  intros Hguard Hmsg c r.
  destruct (onModifiedListener_valid cbs payload dw c Hguard)
    as (u & Ht & _ & _ & _ & Hcase).
  fold r in Ht, Hcase. exists u. rewrite Ht, Hmsg in *. split; [done|].
  destruct m as [|a m']; simpl in Hcase.
  - destruct Hcase as [Hnone _]. repeat split; try done.
  - case_bool_decide as Hd; destruct Hcase as [Hu Hlog].
    + repeat split; try done.
    + split; [done|]. split; [|done].
      intros _ _. split; [done|]. rewrite Hlog. apply lookup_insert_eq.
Qed.

(** *** Subscribing *)




Ltac settle_awaits :=
  repeat match goal with
    | |- context [match ?o with Resolved _ => _ | Rejects _ => _ end] =>
        destruct o; simpl
    end.

(** C5: without a subscriber, [subscribe] throws at once: nothing is asked
    of the subscriber, nothing is sent to the transport, the client is
    unchanged.  With a subscriber set, that throw is never the outcome. *)
Theorem subscribe_requires_subscriber (c : DevWorkspaceClient) :
  (subscriber c = None ->
     subscribe c =
       {| completion := Abrupt (ThrowString "Error: Subscriber does not set.");
          final := c; trace := [] |})
  /\ (forall s, subscriber c = Some s ->
        completion (subscribe c)
          ≠ Abrupt (ThrowString "Error: Subscriber does not set.")).
Proof.
  split.
  - intros Hnone. unfold subscribe. run. by rewrite Hnone.
  - intros s Hs. unfold subscribe, getSubscribeMessage,
      websocketClient_subscribe, websocketClient_addListener, await.
    run. rewrite Hs. settle_awaits; discriminate.
Qed.


(** *** Failure listeners *)

(** C6: [removeWebSocketFailedListener] leaves no failure listener (an
    emission calls nobody) and an empty list of failing contexts; it makes
    no call on the transport and keeps the subscriber, the status cache and
    the last-message map. *)
Theorem removeWebSocketFailedListener_clears (c : DevWorkspaceClient) :
  let r := removeWebSocketFailedListener c in
  webSocketEventEmitter (final r) !! webSocketEventName = None
  /\ trace (emitter_emit webSocketEventName (final r)) = []
  /\ failingWebSockets (final r) = []
  /\ transport_calls (trace r) = []
  /\ subscriber (final r) = subscriber c
  /\ previousItems (final r) = previousItems c
  /\ lastDevWorkspaceLog (final r) = lastDevWorkspaceLog c
  /\ completion r = Normal tt.
Proof.
  unfold removeWebSocketFailedListener, emitter_emit,
    emitter_removeAllListeners, failingWebSockets. run.
  rewrite lookup_delete_eq. done.
Qed.

(** *** Workspace errors and stopping *)

(** C7: for a workspace whose phase, as [getStatus] reads it, is FAILED,
    [checkForDevWorkspaceError] throws an [Error] whose message is the
    status message when there is a non-empty one, and the text "Unknown
    error occured when trying to process the devworkspace" when the status
    message is absent or is the empty string; for any other phase, or none,
    it returns normally. *)
Theorem checkForDevWorkspaceError_phase (dw : devfileApi.DevWorkspace) :
  (getStatus dw = Some DevWorkspaceStatus.FAILED ->
     (forall message,
        devfileApi.status_message dw = Some message ->
        message ≠ EmptyString ->
        checkForDevWorkspaceError dw = Abrupt (ThrowError message))
     /\ (devfileApi.status_message dw = None
         \/ devfileApi.status_message dw = Some EmptyString ->
         checkForDevWorkspaceError dw =
           Abrupt (ThrowError
             "Unknown error occured when trying to process the devworkspace")))
  /\ (getStatus dw ≠ Some DevWorkspaceStatus.FAILED ->
        checkForDevWorkspaceError dw = Normal tt).
Proof.
  unfold checkForDevWorkspaceError. split.
  - intros ->. simpl. split.
    + intros message -> Hne. by destruct message.
    + by intros [-> | ->].
  - intros Hne. rewrite (bool_decide_eq_false_2 _ Hne).
    by rewrite andb_false_r.
Qed.

(** C9: [changeWorkspaceStatus] with [started = false], once the patch
    request has resolved to a workspace, removes the entry of that
    workspace's id from the last-message map, so that the next message for
    it is attached whatever was recorded before; when the patch request is
    rejected the map is left as it was; with [started = true] the map is
    left as it was in every case. *)
Theorem changeWorkspaceStatus_last_message (namespace name : string)
    (c : DevWorkspaceClient) :
  (forall changedWorkspace,
     patchWorkspace namespace name (startedPatch false)
       = Resolved changedWorkspace ->
     let r := changeWorkspaceStatus namespace name false c in
     lastDevWorkspaceLog (final r)
       = delete (getId changedWorkspace) (lastDevWorkspaceLog c)
     /\ lastDevWorkspaceLog (final r) !! getId changedWorkspace = None
     /\ (forall cbs payload dw m,
           isDevWorkspace payload = Some dw ->
           getId dw = getId changedWorkspace ->
           if_truthy (devfileApi.status_message dw) = Some m ->
           exists u,
             status_calls (trace (onModifiedListener cbs payload (final r)))
               = [u]
             /\ message u = Some m))
  /\ (forall reason,
        patchWorkspace namespace name (startedPatch false) = Rejects reason ->
        lastDevWorkspaceLog
          (final (changeWorkspaceStatus namespace name false c))
        = lastDevWorkspaceLog c)
  /\ lastDevWorkspaceLog (final (changeWorkspaceStatus namespace name true c))
     = lastDevWorkspaceLog c.
Proof.
  split; [|split].
  - intros cw Hpatch r.
    assert (Hlog : lastDevWorkspaceLog (final r)
                   = delete (getId cw) (lastDevWorkspaceLog c)).
    { subst r. unfold changeWorkspaceStatus, await. run. rewrite Hpatch.
      simpl. by destruct (checkForDevWorkspaceError cw). }
    split; [done|]. split; [rewrite Hlog; apply lookup_delete_eq|].
    intros cbs payload dw m Hguard Hid Hm.
    destruct (onModifiedListener_valid cbs payload dw (final r) Hguard)
      as (u & Ht & _ & _ & _ & Hcase).
    exists u. rewrite Ht. split; [done|].
    rewrite Hm, Hid, Hlog, lookup_delete_eq in Hcase.
    rewrite bool_decide_eq_false_2 in Hcase by done. by destruct Hcase.
  - intros reason Hpatch. unfold changeWorkspaceStatus, await. run.
    by rewrite Hpatch.
  - unfold changeWorkspaceStatus, await. run.
    destruct (patchWorkspace namespace name (startedPatch true)) as [cw|];
      simpl; [|done].
    by destruct (checkForDevWorkspaceError cw).
Qed.

(** *** [indexOf] *)

Lemma indexOf_Some (x : string) (l : list string) (i : nat) :
  indexOf x l = Some i ->
  l !! i = Some x /\ forall j, (j < i)%nat -> l !! j ≠ Some x.
Proof.
  revert i. induction l as [|y l IH]; intros i; simpl; [done|].
  case_bool_decide as Hy.
  - intros [= <-]. split; [by rewrite Hy|]. intros j Hj. lia.
  - destruct (indexOf x l) as [i'|]; simpl; [|done].
    intros [= <-]. destruct (IH i' eq_refl) as [Hi Hbefore].
    split; [done|]. intros [|j] Hj; simpl.
    + intros [= ?]. done.
    + apply Hbefore. lia.
Qed.

Lemma indexOf_None (x : string) (l : list string) :
  indexOf x l = None <-> x ∉ l.
Proof.
  induction l as [|y l IH]; simpl.
  - split; [intros _; apply not_elem_of_nil | done].
  - case_bool_decide as Hy.
    + split; [done|]. intros Hn. exfalso. apply Hn. subst. left.
    + destruct (indexOf x l) as [i|]; simpl.
      * split; [done|]. intros Hn. exfalso.
        assert (x ∉ l) as Hl by (intros ?; apply Hn; by right).
        apply IH in Hl. done.
      * split; [|done]. intros _ Hin.
        apply elem_of_cons in Hin as [->|Hin]; [done|].
        by apply IH in Hin.
Qed.

Lemma indexOf_lookup_NoDup (l : list string) (i : nat) (x : string) :
  NoDup l -> l !! i = Some x -> indexOf x l = Some i.
Proof.
  intros Hnd Hi.
  destruct (indexOf x l) as [j|] eqn:Hj.
  - apply indexOf_Some in Hj as [Hj _].
    f_equal. by apply (NoDup_lookup l j i x).
  - apply indexOf_None in Hj. exfalso. apply Hj.
    by apply list_elem_of_lookup_2 in Hi.
Qed.

Lemma indexOf_split (x : string) (l : list string) (i : nat) :
  indexOf x l = Some i ->
  exists l1 l2, l = l1 ++ x :: l2 /\ (x ∉ l1) /\ delete i l = l1 ++ l2.
Proof.
  revert i. induction l as [|y l IH]; intros i; simpl; [done|].
  case_bool_decide as Hy.
  - intros [= <-]. exists [], l. subst. split; [done|].
    split; [apply not_elem_of_nil | done].
  - destruct (indexOf x l) as [i'|]; simpl; [|done].
    intros [= <-]. destruct (IH i' eq_refl) as (l1 & l2 & -> & Hl1 & Hdel).
    exists (y :: l1), l2. split; [done|]. split.
    + intros Hin. apply elem_of_cons in Hin as [->|Hin]; done.
    + simpl. by rewrite Hdel.
Qed.

(** *** The transport callbacks *)

Lemma alerts_app (t1 t2 : list Effect) :
  alerts (t1 ++ t2) = alerts t1 ++ alerts t2.
Proof. apply omap_app. Qed.

Lemma alerts_failed_listeners (l : list nat) :
  alerts (FailedListenerCall <$> l) = [].
Proof. induction l; [done|]. simpl. done. Qed.

Lemma subscribe_without_subscriber (c : DevWorkspaceClient) :
  subscriber c = None ->
  subscribe c =
    {| completion := Abrupt (ThrowString "Error: Subscriber does not set.");
       final := c; trace := [] |}.
Proof. intros Hnone. unfold subscribe. run. by rewrite Hnone. Qed.

(** [subscribe] shows no alert and leaves the client as it is. *)
Lemma subscribe_frame (c : DevWorkspaceClient) :
  final (subscribe c) = c /\ alerts (trace (subscribe c)) = [].
Proof.
  unfold subscribe, getSubscribeMessage, websocketClient_subscribe,
    websocketClient_addListener, await.
  run. destruct (subscriber c) as [s|]; simpl; [|done].
  settle_awaits; done.
Qed.

Lemma onDidWebSocketOpen_run (websocketContext : string)
    (c : DevWorkspaceClient) :
  let c' := fst (opened websocketContext c) in
  let calls := snd (opened websocketContext c) in
  onDidWebSocketOpen websocketContext c =
    {| completion := Normal tt;
       final := c';
       trace := calls ++ trace (subscribe c')
                ++ match completion (subscribe c') with
                   | Normal _ => []
                   | Abrupt e =>
                       [ShowAlert (subscribeErrorAlert websocketContext e)]
                   end |}.
Proof.
  unfold opened, onDidWebSocketOpen, emitter_emit, showAlert,
    bind, catch, get, modify, ret, emit.
  cbn -[subscribe].
  destruct (indexOf websocketContext (_failingWebSockets c)) as [index|];
    cbn -[subscribe].
  - pose proof (subscribe_frame
        (set_failingWebSockets (delete index (_failingWebSockets c)) c))
      as [Hfinal _].
    destruct (subscribe _) as [[[]|e] c1 t1]; simpl in *; subst c1.
    + by rewrite app_nil_r.
    + done.
  - pose proof (subscribe_frame c) as [Hfinal _].
    destruct (subscribe c) as [[[]|e] c1 t1]; simpl in *; subst c1.
    + by rewrite app_nil_r.
    + done.
Qed.

(** What [subscribe] does depends on the client through its subscriber
    only. *)
Lemma subscribe_subscriber (c1 c2 : DevWorkspaceClient) :
  subscriber c1 = subscriber c2 ->
  completion (subscribe c1) = completion (subscribe c2)
  /\ trace (subscribe c1) = trace (subscribe c2).
Proof.
  intros Heq.
  unfold subscribe, getSubscribeMessage, websocketClient_subscribe,
    websocketClient_addListener, await.
  run. rewrite Heq. destruct (subscriber c2) as [s|]; simpl; [|done].
  settle_awaits; done.
Qed.

(** X5: [onDidWebSocketOpen] never throws: whatever [subscribe] does, the
    handler completes normally.  When [subscribe] succeeds for the client it
    shows no alert; when [subscribe] fails with [e] it shows exactly one
    alert, of variant danger and key websocket-subscribe-error, whose title
    names the context and renders [e].  Without a subscriber that alert
    reports the missing subscriber for the context. *)
Theorem onDidWebSocketOpen_absorbs_errors (websocketContext : string)
    (c : DevWorkspaceClient) :
  let r := onDidWebSocketOpen websocketContext c in
  completion r = Normal tt
  /\ (completion (subscribe c) = Normal tt -> alerts (trace r) = [])
  /\ (forall e,
        completion (subscribe c) = Abrupt e ->
        alerts (trace r) =
          [ {| key := "websocket-subscribe-error"; variant := danger;
               title := "Websocket '" +:+ websocketContext
                        +:+ "' subscribe Error: " +:+ render e |} ])
  /\ (subscriber c = None ->
      alerts (trace r) =
        [ {| key := "websocket-subscribe-error"; variant := danger;
             title := "Websocket '" +:+ websocketContext
                      +:+ "' subscribe Error: Error: Subscriber does not set."
          |} ]).
Proof.
  intros r. subst r. rewrite onDidWebSocketOpen_run. cbn [completion trace].
  split; [done|].
  set (c' := fst (opened websocketContext c)).
  set (calls := snd (opened websocketContext c)).
  assert (Hcalls : alerts calls = []).
  { subst calls. unfold opened.
    destruct (indexOf _ _); simpl; [apply alerts_failed_listeners | done]. }
  assert (Hc' : subscriber c' = subscriber c).
  { subst c'. unfold opened. by destruct (indexOf _ _). }
  destruct (subscribe_frame c') as [_ Hsub].
  destruct (subscribe_subscriber c' c Hc') as [Hcompletion _].
  rewrite !alerts_app, Hcalls, Hsub, Hcompletion. simpl.
  split; [by intros ->|]. split; [by intros e ->|].
  intros Hnone. by rewrite (subscribe_without_subscriber c Hnone).
Qed.


Lemma failed_listener_calls_app (t1 t2 : list Effect) :
  failed_listener_calls (t1 ++ t2)
  = failed_listener_calls t1 ++ failed_listener_calls t2.
Proof. apply omap_app. Qed.

Lemma failed_listener_calls_fmap (l : list nat) :
  failed_listener_calls (FailedListenerCall <$> l) = l.
Proof.
  induction l as [|x l IH]; [done|].
  change (x :: failed_listener_calls (FailedListenerCall <$> l) = x :: l).
  by rewrite IH.
Qed.

Lemma subscribe_calls_no_failed_listener (c : DevWorkspaceClient) :
  failed_listener_calls (trace (subscribe c)) = [].
Proof.
  unfold subscribe, getSubscribeMessage, websocketClient_subscribe,
    websocketClient_addListener, await.
  run. destruct (subscriber c) as [s|]; simpl; [|done].
  settle_awaits; done.
Qed.

(** X6: when a context is reported open, only its first entry leaves the
    list of failing contexts, and the failure listeners are then called
    once each, in registration order; a context that is not listed
    changes nothing and calls no failure listener. *)
Theorem onDidWebSocketOpen_forgets_first_failure (websocketContext : string)
    (c : DevWorkspaceClient) :
  let r := onDidWebSocketOpen websocketContext c in
  (websocketContext ∈ failingWebSockets c ->
     exists l1 l2,
       failingWebSockets c = l1 ++ websocketContext :: l2
       /\ (websocketContext ∉ l1)
       /\ failingWebSockets (final r) = l1 ++ l2
       /\ failed_listener_calls (trace r)
          = default [] (webSocketEventEmitter c !! webSocketEventName))
  /\ ((websocketContext ∉ failingWebSockets c) ->
      failingWebSockets (final r) = failingWebSockets c
      /\ failed_listener_calls (trace r) = []).
Proof.
  intros r. subst r. rewrite onDidWebSocketOpen_run. cbn [final trace].
  rewrite !failed_listener_calls_app, subscribe_calls_no_failed_listener.
  assert (Halert : failed_listener_calls
            match completion (subscribe (opened websocketContext c).1) with
            | Normal _ => []
            | Abrupt e => [ShowAlert (subscribeErrorAlert websocketContext e)]
            end = []) by (by destruct (completion _)).
  rewrite Halert, !app_nil_r. clear Halert.
  unfold opened, failingWebSockets. split.
  - intros Hin.
    destruct (indexOf websocketContext (_failingWebSockets c)) as [index|]
      eqn:Hindex.
    + destruct (indexOf_split _ _ _ Hindex) as (l1 & l2 & Hl & Hl1 & Hdel).
      exists l1, l2. cbn [fst snd]. rewrite failed_listener_calls_fmap.
      simpl. done.
    + apply indexOf_None in Hindex. done.
  - intros Hnotin. apply indexOf_None in Hnotin. by rewrite Hnotin.
Qed.

Lemma history_snoc (ops : list Op) (op : Op) (c : DevWorkspaceClient) :
  history (ops ++ [op]) c = final (perform op (history ops c)).
Proof. unfold history. by rewrite foldl_app. Qed.

(** X7: the failure listeners are called in the order they were
    registered: after the callbacks [cbs] have been registered through
    [onWebSocketFailed], a failing context is appended to the list of
    failing contexts and the calls are those of the listeners registered
    before, then those of [cbs], in order. *)
Theorem onDidWebSocketFailing_calls_in_registration_order
    (cbs : list nat) (websocketContext : string) (c : DevWorkspaceClient) :
  let c' := history (OnWebSocketFailed <$> cbs) c in
  let r := onDidWebSocketFailing websocketContext c' in
  trace r =
    FailedListenerCall <$>
      (default [] (webSocketEventEmitter c !! webSocketEventName) ++ cbs)
  /\ failingWebSockets (final r) = failingWebSockets c ++ [websocketContext]
  /\ completion r = Normal tt.
Proof.
  intros c' r.
  assert (Hc' : default [] (webSocketEventEmitter c' !! webSocketEventName)
                = default [] (webSocketEventEmitter c !! webSocketEventName)
                  ++ cbs
                /\ _failingWebSockets c' = _failingWebSockets c).
  { subst c'. induction cbs as [|cb cbs IH] using rev_ind.
    - simpl. by rewrite app_nil_r.
    - rewrite fmap_app. simpl. rewrite history_snoc.
      destruct IH as [IHe IHf]. simpl.
      unfold onWebSocketFailed, emitter_on. run.
      rewrite lookup_insert_eq. simpl. rewrite IHe, IHf.
      by rewrite app_assoc. }
  destruct Hc' as [He Hf]. subst r.
  unfold onDidWebSocketFailing, emitter_emit, failingWebSockets. run.
  by rewrite He, Hf.
Qed.

(** X8: [onDidWebSocketClose] shows an alert, a warning keyed by the close
    code and carrying the reason, exactly when the code is not 1011 and
    the reason is not empty; otherwise it only writes to the console.  It
    never changes the client. *)
Theorem onDidWebSocketClose_alerts (event : CloseEvent)
    (c : DevWorkspaceClient) :
  let r := onDidWebSocketClose event c in
  (code event ≠ 1011%N -> reason event ≠ EmptyString ->
     trace r =
       [ ShowAlert
           {| key := "websocket-close-code-" +:+ pretty (code event);
              variant := warning;
              title := "Failed to establish WebSocket to server: "
                       +:+ reason event |} ])
  /\ (code event = 1011%N \/ reason event = EmptyString ->
      alerts (trace r) = []
      /\ trace r = [ConsoleWarn "WebSocket close" [CloseEvent_value event]])
  /\ final r = c /\ completion r = Normal tt.
Proof.
  unfold onDidWebSocketClose, showAlert. split; [|split].
  - intros Hcode Hreason. apply N.eqb_neq in Hcode. rewrite Hcode.
    destruct (reason event); [done|]. simpl. run. done.
  - intros [Hcode|Hreason].
    + rewrite Hcode. simpl. run. done.
    + rewrite Hreason. rewrite andb_false_r. run. done.
  - destruct (negb _ && _); run; done.
Qed.

Lemma append_inj_prefix (p a b : string) : p +:+ a = p +:+ b -> a = b.
Proof. induction p as [|ch p IH]; simpl; [done|]. intros [= H]. auto. Qed.

(** X9: two close events that raise an alert share its key exactly when
    they have the same close code. *)
Theorem onDidWebSocketClose_key_by_code (event1 event2 : CloseEvent)
    (c1 c2 : DevWorkspaceClient) (a1 a2 : AlertItem) :
  alerts (trace (onDidWebSocketClose event1 c1)) = [a1] ->
  alerts (trace (onDidWebSocketClose event2 c2)) = [a2] ->
  key a1 = key a2 <-> code event1 = code event2.
Proof.
  unfold onDidWebSocketClose, showAlert.
  destruct (negb (code event1 =? 1011)%N && _); run; [|done].
  destruct (negb (code event2 =? 1011)%N && _); run; [|done].
  intros [= <-] [= <-]. simpl. split.
  - intros Hkey. apply append_inj_prefix in Hkey. by apply (inj pretty).
  - by intros ->.
Qed.

(** *** Reading from the backend *)

Lemma collectWorkspaces_filter
    (items workspaces : list devfileApi.DevWorkspace) :
  collectWorkspaces items workspaces
  = workspaces ++ filter (fun w => isWebTerminal w = false) items.
Proof.
  revert workspaces. induction items as [|item rest IH]; intros workspaces.
  - simpl. by rewrite app_nil_r.
  - simpl. rewrite IH. destruct (isWebTerminal item) eqn:Hterm; simpl.
    + by rewrite filter_cons_False by (by rewrite Hterm).
    + rewrite filter_cons_True by done. by rewrite <- app_assoc.
Qed.

(** X10: [getAllWorkspaces] makes one list request and returns the listed
    items that are not web terminals, all of them and in the listed order,
    with the resource version of the list; a rejected request is rejected
    with the same reason. *)
Theorem getAllWorkspaces_drops_web_terminals (defaultNamespace : string) :
  (forall items resourceVersion,
     listWorkspacesInNamespace defaultNamespace
       = Resolved (items, resourceVersion) ->
     getAllWorkspaces defaultNamespace =
       (Normal (filter (fun w => isWebTerminal w = false) items,
                resourceVersion),
        [ListWorkspacesInNamespace defaultNamespace]))
  /\ (forall reason,
        listWorkspacesInNamespace defaultNamespace = Rejects reason ->
        getAllWorkspaces defaultNamespace =
          (Abrupt (Rejection reason),
           [ListWorkspacesInNamespace defaultNamespace])).
Proof.
  unfold getAllWorkspaces, after_requests. split.
  - intros items rv ->. simpl. by rewrite collectWorkspaces_filter.
  - by intros reason ->.
Qed.

(** X11: on the onAdded channel, a payload that fails [isDevWorkspace]
    reaches [updateAddedDevWorkspaces] zero times and raises one alert, a
    warning keyed by the channel name; a workspace reaches the callback
    once, as a singleton list.  Neither throws nor changes the client. *)
Theorem onAddedListener_dispatch (cbs : Callbacks) (payload : Js.unknown)
    (c : DevWorkspaceClient) :
  let r := onAddedListener cbs payload c in
  (isDevWorkspace payload = None ->
     added_calls (trace r) = []
     /\ exists a, alerts (trace r) = [a]
          /\ key a = onAdded +:+ "-websocket-channel"
          /\ variant a = warning)
  /\ (forall dw, isDevWorkspace payload = Some dw ->
        trace r = [UpdateAddedDevWorkspaces cbs [dw]])
  /\ final r = c /\ completion r = Normal tt.
Proof.
  unfold onAddedListener, showAlert. split; [|split].
  - intros ->. run. split; [done|]. eexists. done.
  - intros dw ->. run. done.
  - destruct (isDevWorkspace payload); run; done.
Qed.

Lemma checkRetrieved_normal (namespace workspaceName : string)
    (workspace result : devfileApi.DevWorkspace) :
  checkRetrieved namespace workspaceName workspace = Normal result ->
  result = workspace
  /\ checkForDevWorkspaceError workspace = Normal tt
  /\ exists st, devfileApi.status workspace = Some st
       /\ truthy_unknown (devfileApi.phase st) = true
       /\ (devfileApi.phase st = Js.Str DevWorkspaceStatus.RUNNING ->
           Js.truthy (devfileApi.mainUrl st) = true).
Proof.
  unfold checkRetrieved.
  destruct (checkForDevWorkspaceError workspace) as [[]|e]; [|done].
  destruct (devfileApi.status workspace) as [st|]; [|done].
  destruct (truthy_unknown (devfileApi.phase st)) eqn:Hphase; [|done].
  simpl.
  destruct (strict_equals_string _ _ && _) eqn:Hrunning; [done|].
  intros [= <-]. split; [done|]. split; [done|].
  exists st. split; [done|]. split; [done|].
  intros Hr. rewrite Hr in Hrunning. simpl in Hrunning.
  rewrite ?bool_decide_eq_true_2 in Hrunning by done.
  by destruct (Js.truthy (devfileApi.mainUrl st)).
Qed.

Lemma polls_app (t1 t2 : list Request) : polls (t1 ++ t2) = polls t1 + polls t2.
Proof. unfold polls. by rewrite filter_app, length_app. Qed.

Lemma pauses_app (t1 t2 : list Request) :
  pauses (t1 ++ t2) = pauses t1 + pauses t2.
Proof. unfold pauses. by rewrite filter_app, length_app. Qed.

Lemma pollStatus_bounded (fuel : nat) (namespace workspaceName : string)
    (attempted : nat) (workspace : devfileApi.DevWorkspace) :
  maxStatusAttempts <= attempted + fuel ->
  exists r,
    pollStatus fuel namespace workspaceName attempted workspace = Some r
    /\ polls (snd r) <= maxStatusAttempts - attempted
    /\ pauses (snd r) <= maxStatusAttempts - attempted
    /\ forall result, fst r = Normal result ->
         checkRetrieved namespace workspaceName result = Normal result.
Proof.
  revert attempted workspace.
  induction fuel as [|fuel IH]; intros attempted workspace Hfuel;
    cbn [pollStatus].
  - rewrite bool_decide_eq_false_2 by lia. rewrite andb_false_r.
    eexists. split; [done|]. cbn [fst snd].
    split; [unfold polls; simpl; lia|]. split; [unfold pauses; simpl; lia|].
    intros result Hr.
    by apply checkRetrieved_normal in Hr as Hr'; destruct Hr' as [-> _].
  - destruct (statusIncomplete workspace
              && bool_decide (attempted < maxStatusAttempts)) eqn:Hloop.
    + apply andb_prop in Hloop as [_ Hlt]. apply bool_decide_eq_true_1 in Hlt.
      destruct (DwApi_getWorkspaceByName namespace workspaceName (S attempted))
        as [next|reason].
      * destruct (checkForDevWorkspaceError next) as [[]|e].
        -- destruct (IH (S attempted) next) as (r & -> & Hp & Hd & Hn); [lia|].
           eexists. split; [done|]. unfold after_requests. cbn [fst snd].
           rewrite polls_app, pauses_app.
           assert (polls [GetWorkspaceByName namespace workspaceName; Delay]
                   = 1) as -> by reflexivity.
           assert (pauses [GetWorkspaceByName namespace workspaceName; Delay]
                   = 1) as -> by reflexivity.
           split; [lia|]. split; [lia|]. done.
        -- eexists. split; [done|]. cbn [fst snd].
           assert (polls [GetWorkspaceByName namespace workspaceName] = 1)
             as -> by reflexivity.
           assert (pauses [GetWorkspaceByName namespace workspaceName] = 0)
             as -> by reflexivity.
           split; [lia|]. split; [lia|]. done.
      * eexists. split; [done|]. cbn [fst snd].
        assert (polls [GetWorkspaceByName namespace workspaceName] = 1)
          as -> by reflexivity.
        assert (pauses [GetWorkspaceByName namespace workspaceName] = 0)
          as -> by reflexivity.
        split; [lia|]. split; [lia|]. done.
    + eexists. split; [done|]. cbn [fst snd].
      split; [unfold polls; simpl; lia|]. split; [unfold pauses; simpl; lia|].
      intros result Hr.
      by apply checkRetrieved_normal in Hr as Hr'; destruct Hr' as [-> _].
Qed.

(** X12: [getWorkspaceByName] always finishes: it makes at least one and
    at most eleven requests for the workspace (the first one and at most
    [maxStatusAttempts] polls) and pauses at most ten times. *)
Theorem getWorkspaceByName_bounded (namespace workspaceName : string) :
  exists r,
    getWorkspaceByName namespace workspaceName = Some r
    /\ 1 <= polls (snd r) <= S maxStatusAttempts
    /\ pauses (snd r) <= maxStatusAttempts.
Proof.
  unfold getWorkspaceByName.
  destruct (DwApi_getWorkspaceByName namespace workspaceName 0)
    as [workspace|reason].
  - destruct (pollStatus_bounded maxStatusAttempts namespace workspaceName 0
                workspace) as (r & -> & Hp & Hd & _); [lia|].
    eexists. split; [done|]. unfold after_requests. cbn [fst snd].
    rewrite polls_app, pauses_app.
    assert (polls [GetWorkspaceByName namespace workspaceName] = 1)
      as -> by reflexivity.
    assert (pauses [GetWorkspaceByName namespace workspaceName] = 0)
      as -> by reflexivity.
    lia.
  - eexists. split; [done|]. cbn [fst snd].
    assert (polls [GetWorkspaceByName namespace workspaceName] = 1)
      as -> by reflexivity.
    assert (pauses [GetWorkspaceByName namespace workspaceName] = 0)
      as -> by reflexivity.
    unfold maxStatusAttempts. lia.
Qed.

(** X13: a workspace [getWorkspaceByName] returns has a status with a
    phase, is not reported failed by [checkForDevWorkspaceError], and has
    a main URL if its phase is RUNNING. *)
Theorem getWorkspaceByName_returns_status (namespace workspaceName : string)
    (r : Fetch devfileApi.DevWorkspace) (workspace : devfileApi.DevWorkspace) :
  getWorkspaceByName namespace workspaceName = Some r ->
  fst r = Normal workspace ->
  checkForDevWorkspaceError workspace = Normal tt
  /\ exists st, devfileApi.status workspace = Some st
       /\ truthy_unknown (devfileApi.phase st) = true
       /\ (devfileApi.phase st = Js.Str DevWorkspaceStatus.RUNNING ->
           Js.truthy (devfileApi.mainUrl st) = true).
Proof.
  unfold getWorkspaceByName.
  destruct (DwApi_getWorkspaceByName namespace workspaceName 0)
    as [first|reason]; [|by intros [= <-]].
  destruct (pollStatus_bounded maxStatusAttempts namespace workspaceName 0
              first) as (r' & -> & _ & _ & Hn); [lia|].
  simpl. intros [= <-]. unfold after_requests. simpl. intros Hr.
  apply Hn in Hr. by apply checkRetrieved_normal in Hr as (_ & ? & ?).
Qed.

Lemma pollStatus_exhausts (fuel : nat) (namespace workspaceName : string)
    (attempted : nat) (workspace : devfileApi.DevWorkspace)
    (answer : nat -> devfileApi.DevWorkspace) :
  attempted + fuel = maxStatusAttempts ->
  statusIncomplete workspace = true ->
  (forall k, attempted < k <= maxStatusAttempts ->
     DwApi_getWorkspaceByName namespace workspaceName k = Resolved (answer k)
     /\ statusIncomplete (answer k) = true
     /\ checkForDevWorkspaceError (answer k) = Normal tt) ->
  pollStatus fuel namespace workspaceName attempted workspace =
    Some (checkRetrieved namespace workspaceName
            (match fuel with 0 => workspace | _ => answer maxStatusAttempts end),
          mjoin (replicate fuel
                   [GetWorkspaceByName namespace workspaceName; Delay])).
Proof.
  revert attempted workspace.
  induction fuel as [|fuel IH]; intros attempted workspace Hfuel Hinc Hans;
    simpl.
  - rewrite bool_decide_eq_false_2 by lia. by rewrite andb_false_r.
  - rewrite Hinc, bool_decide_eq_true_2 by lia. simpl.
    destruct (Hans (S attempted)) as (-> & Hinc' & ->); [lia|].
    rewrite (IH (S attempted) (answer (S attempted))); [|lia|done|].
    + simpl. unfold after_requests. simpl. do 2 f_equal.
      destruct fuel; [|done].
      assert (S attempted = maxStatusAttempts) as -> by lia. done.
    + intros k Hk. apply Hans. lia.
Qed.

(** X14: while the workspace has no phase or no main URL and is not
    failed, [getWorkspaceByName] keeps polling: if every answer is such a
    workspace, it makes eleven requests with ten pauses, and what it then
    does depends on the last answer alone.  This is so for a stopped
    workspace, which has a phase and never a main URL. *)
Theorem getWorkspaceByName_polls_to_the_limit
    (namespace workspaceName : string)
    (answer : nat -> devfileApi.DevWorkspace) :
  (forall k, k <= maxStatusAttempts ->
     DwApi_getWorkspaceByName namespace workspaceName k = Resolved (answer k)
     /\ statusIncomplete (answer k) = true
     /\ checkForDevWorkspaceError (answer k) = Normal tt) ->
  exists t,
    getWorkspaceByName namespace workspaceName =
      Some (checkRetrieved namespace workspaceName (answer maxStatusAttempts),
            t)
    /\ polls t = S maxStatusAttempts
    /\ pauses t = maxStatusAttempts.
Proof.
  intros Hans. unfold getWorkspaceByName.
  destruct (Hans 0) as (-> & Hinc & _); [lia|].
  rewrite (pollStatus_exhausts maxStatusAttempts namespace workspaceName 0
             (answer 0) answer); [|lia|done|].
  - simpl. eexists. split; [done|]. split; reflexivity.
  - intros k Hk. apply Hans. lia.
Qed.

(** *** The caches along a history *)

Lemma if_truthy_nonempty (v : option string) (m : string) :
  if_truthy v = Some m -> v = Some m /\ m ≠ EmptyString.
Proof.
  unfold if_truthy. destruct v as [[|a s]|]; simpl; try done.
  by intros [= <-].
Qed.

(** The client after the onModified listener has handled a workspace. *)
Lemma onModifiedListener_final (cbs : Callbacks) (payload : Js.unknown)
    (dw : devfileApi.DevWorkspace) (c : DevWorkspaceClient) :
  isDevWorkspace payload = Some dw ->
  let namespace := devfileApi.namespace (devfileApi.metadata dw) in
  let r := onModifiedListener cbs payload c in
  exists u,
    trace r = [UpdateDevWorkspaceStatus cbs u]
    /\ previousItems (final r)
       = cache_insert namespace (getId dw) u (previousItems c)
    /\ workspaceId u = getId dw
    /\ status u = Some (reported_status dw)
    /\ prevStatus u =
         match previousItems c !! namespace with
         | Some prevWorkspace => prevWorkspace !! getId dw ≫= status_of
         | None => Some (reported_status dw)
         end
    /\ (message u = None
        \/ message u = if_truthy (devfileApi.status_message dw))
    /\ lastDevWorkspaceLog (final r) =
         match message u with
         | Some m => <[getId dw := m]> (lastDevWorkspaceLog c)
         | None => lastDevWorkspaceLog c
         end
    /\ subscriber (final r) = subscriber c
    /\ webSocketEventEmitter (final r) = webSocketEventEmitter c
    /\ _failingWebSockets (final r) = _failingWebSockets c.
Proof.
  intros Hguard. unfold onModifiedListener, cache_insert. rewrite Hguard.
  unfold createStatusUpdate, assign_message. run.
  destruct (if_truthy (devfileApi.status_message dw)) as [m|];
    [destruct (decide (lastDevWorkspaceLog c !! getId dw = Some m)) as [Hd|Hd]|];
    destruct (previousItems c !! _) as [prevWorkspace|] eqn:E; simpl.
  1,2: rewrite (bool_decide_eq_false_2 (_ ≠ _)) by (intros Hn; by apply Hn).
  3,4: rewrite (bool_decide_eq_true_2 (_ ≠ _)) by done.
  all: simpl; eexists; (split; [reflexivity|]).
  all: rewrite ?alter_insert_eq.
  all: repeat split; try reflexivity; auto.
Qed.

Lemma cached_cache_insert (namespace workspaceId ns id : string)
    (u : IStatusUpdate) (c c' : DevWorkspaceClient) :
  previousItems c'
    = cache_insert namespace workspaceId u (previousItems c) ->
  cached c' ns id =
    if decide (namespace = ns /\ workspaceId = id) then Some u
    else cached c ns id.
Proof.
  intros Hitems. unfold cached, cache_insert in *. rewrite Hitems.
  destruct (decide (namespace = ns)) as [->|Hns].
  - rewrite lookup_insert_eq. simpl.
    destruct (decide (workspaceId = id)) as [->|Hid].
    + rewrite lookup_insert_eq. by rewrite decide_True.
    + rewrite lookup_insert_ne by done.
      rewrite decide_False by (intros [_ ?]; done).
      by destruct (previousItems c !! ns).
  - rewrite lookup_insert_ne by done.
    by rewrite decide_False by (intros [? _]; done).
Qed.

Lemma onModifiedListener_malformed (cbs : Callbacks) (payload : Js.unknown)
    (c : DevWorkspaceClient) :
  isDevWorkspace payload = None ->
  final (onModifiedListener cbs payload c) = c
  /\ status_calls (trace (onModifiedListener cbs payload c)) = []
  /\ completion (onModifiedListener cbs payload c) = Normal tt.
Proof.
  intros Hguard. unfold onModifiedListener, showAlert. rewrite Hguard.
  run. done.
Qed.

(** What an operation does to the two caches: only a modified event
    writes the status cache, and only a modified event or a stop writes
    the last-message map. *)
Lemma perform_caches (op : Op) (c : DevWorkspaceClient) :
  match op with
  | ChannelEvent (ModifiedListener _) _ => True
  | ChangeWorkspaceStatus _ _ _ =>
      previousItems (final (perform op c)) = previousItems c
      /\ (lastDevWorkspaceLog (final (perform op c)) = lastDevWorkspaceLog c
          \/ exists id, lastDevWorkspaceLog (final (perform op c))
                        = delete id (lastDevWorkspaceLog c))
  | _ =>
      previousItems (final (perform op c)) = previousItems c
      /\ lastDevWorkspaceLog (final (perform op c)) = lastDevWorkspaceLog c
  end.
Proof.
  destruct op as [s|ctx|ctx|event|callback| |ns name started|l payload];
    cbn [perform].
  - unfold subscribeToNamespace, await. run. by destruct wsConnect.
  - unfold onDidWebSocketFailing, emitter_emit. run. done.
  - rewrite onDidWebSocketOpen_run. cbn [final]. unfold opened.
    by destruct (indexOf _ _).
  - unfold onDidWebSocketClose, showAlert.
    destruct (negb _ && _); run; done.
  - unfold onWebSocketFailed. run. done.
  - unfold removeWebSocketFailedListener. run. done.
  - unfold changeWorkspaceStatus, await. run.
    destruct (patchWorkspace ns name (startedPatch started)) as [cw|];
      simpl; [|by split; [|left]].
    destruct started; simpl;
      destruct (checkForDevWorkspaceError cw); simpl;
      (split; [done|]); eauto.
  - destruct l as [cbs|cbs|cbs]; [done| |]; cbn [runListener].
    + unfold onAddedListener, showAlert.
      destruct (isDevWorkspace payload); run; done.
    + unfold onDeletedListener, showAlert.
      case_bool_decide; [run; done|].
      destruct payload; run; done.
Qed.

(** An operation other than a modified event leaves the status cache as
    it is and at most deletes an entry of the last-message map. *)
Lemma perform_other (op : Op) (c : DevWorkspaceClient) :
  (forall cbs payload, op ≠ ChannelEvent (ModifiedListener cbs) payload) ->
  previousItems (final (perform op c)) = previousItems c
  /\ (lastDevWorkspaceLog (final (perform op c)) = lastDevWorkspaceLog c
      \/ exists id, lastDevWorkspaceLog (final (perform op c))
                    = delete id (lastDevWorkspaceLog c)).
Proof.
  intros Hop. pose proof (perform_caches op c) as Hc.
  destruct op
    as [s|ctx|ctx|event|callback| |ns name started|[cbs|cbs|cbs] payload].
  1-6,9,10: destruct Hc as [Hp Hl]; split; [done|by left].
  - exact Hc.
  - by destruct (Hop cbs payload).
Qed.

(** What a modified event is, for the two caches. *)
Lemma perform_modified (op : Op) (c : DevWorkspaceClient) :
  (exists cbs payload dw,
     op = ChannelEvent (ModifiedListener cbs) payload
     /\ isDevWorkspace payload = Some dw)
  \/ (previousItems (final (perform op c)) = previousItems c
      /\ (lastDevWorkspaceLog (final (perform op c)) = lastDevWorkspaceLog c
          \/ exists id, lastDevWorkspaceLog (final (perform op c))
                        = delete id (lastDevWorkspaceLog c))).
Proof.
  destruct op
    as [s|ctx|ctx|event|callback| |ns name started|[cbs|cbs|cbs] payload].
  1-7,9,10: right; apply perform_other; intros ??; discriminate.
  destruct (isDevWorkspace payload) as [dw|] eqn:Hguard.
  - left. by exists cbs, payload, dw.
  - right. cbn [perform runListener].
    destruct (onModifiedListener_malformed cbs payload c Hguard) as [-> _].
    split; [done|by left].
Qed.

Lemma perform_cached_frame (namespace workspaceId : string) (op : Op)
    (c : DevWorkspaceClient) :
  ~ observes namespace workspaceId op ->
  cached (final (perform op c)) namespace workspaceId
  = cached c namespace workspaceId.
Proof.
  intros Hobs.
  destruct (perform_modified op c)
    as [(cbs & payload & dw & -> & Hguard)|[Hp _]].
  - cbn [perform runListener].
    destruct (onModifiedListener_final cbs payload dw c Hguard)
      as (u & _ & Hitems & _).
    rewrite (cached_cache_insert _ _ namespace workspaceId u c _ Hitems).
    rewrite decide_False; [done|]. intros [Hns Hid]. apply Hobs.
    by exists cbs, payload, dw.
  - unfold cached. by rewrite Hp.
Qed.

Lemma perform_cached_stays (namespace workspaceId : string) (op : Op)
    (c : DevWorkspaceClient) :
  is_Some (cached c namespace workspaceId) ->
  is_Some (cached (final (perform op c)) namespace workspaceId).
Proof.
  intros Hsome.
  destruct (perform_modified op c)
    as [(cbs & payload & dw & -> & Hguard)|[Hp _]].
  - cbn [perform runListener].
    destruct (onModifiedListener_final cbs payload dw c Hguard)
      as (u & _ & Hitems & _).
    rewrite (cached_cache_insert _ _ namespace workspaceId u c _ Hitems).
    by case_decide.
  - unfold cached in *. by rewrite Hp.
Qed.

Lemma perform_well_formed (op : Op) (c : DevWorkspaceClient) :
  well_formed c -> well_formed (final (perform op c)).
Proof.
  intros [Hcache Hlog].
  destruct (perform_modified op c)
    as [(cbs & payload & dw & -> & Hguard)|[Hp Hl]].
  - cbn [perform runListener].
    destruct (onModifiedListener_final cbs payload dw c Hguard)
      as (u & _ & Hitems & Hid & Hstatus & _ & Hmsg & Hl & _).
    split.
    + intros ns id u'.
      rewrite (cached_cache_insert _ _ ns id u c _ Hitems).
      case_decide as Hkey; [|by apply Hcache].
      intros [= <-]. destruct Hkey as [_ <-]. by rewrite Hstatus.
    + rewrite Hl. destruct (message u) as [m|] eqn:Hm; [|done].
      intros id m'. rewrite lookup_insert.
      case_decide; [|by apply Hlog]. intros [= <-].
      destruct Hmsg as [Hmsg|Hmsg]; [done|].
      symmetry in Hmsg. by apply if_truthy_nonempty in Hmsg as [_ ?].
  - split.
    + intros ns id u. unfold cached. rewrite Hp. apply Hcache.
    + destruct Hl as [->|[id ->]]; [done|].
      intros id' m Hm. apply lookup_delete_Some in Hm as [_ Hm]. eauto.
Qed.

Lemma history_cons (op : Op) (ops : list Op) (c : DevWorkspaceClient) :
  history (op :: ops) c = history ops (final (perform op c)).
Proof. reflexivity. Qed.

Lemma new_client_well_formed : well_formed new_client.
Proof.
  split; [intros ns id u | intros id m]; unfold cached, new_client;
    cbn [previousItems lastDevWorkspaceLog]; by rewrite lookup_empty.
Qed.

(** The well-formedness of the caches is kept along every history. *)
Lemma history_preserves_well_formed (ops : list Op) (c : DevWorkspaceClient) :
  well_formed c -> well_formed (history ops c).
Proof.
  intros Hc. induction ops as [|op ops IH] using rev_ind; [done|].
  rewrite history_snoc. by apply perform_well_formed.
Qed.

(** X15: in every state the client reaches from its construction, through
    any calls of its methods, transport callbacks and channel events, each
    cached update sits under its own workspace id and has a status, and
    each recorded last message is not empty. *)
Theorem history_well_formed (ops : list Op) :
  well_formed (history ops new_client).
Proof.
  apply history_preserves_well_formed. apply new_client_well_formed.
Qed.

(** X16: the status cache never forgets a workspace: once an update is
    cached for a workspace, one stays cached through any history, be it
    a deleted event for the workspace or the workspace being stopped. *)
Theorem history_keeps_cached (ops : list Op) (c : DevWorkspaceClient)
    (namespace workspaceId : string) :
  is_Some (cached c namespace workspaceId) ->
  is_Some (cached (history ops c) namespace workspaceId).
Proof.
  revert c. induction ops as [|op ops IH]; intros c Hsome; [done|].
  rewrite history_cons. apply IH. by apply perform_cached_stays.
Qed.

Lemma history_cached_frame (ops : list Op) (c : DevWorkspaceClient)
    (namespace workspaceId : string) :
  Forall (fun op => ~ observes namespace workspaceId op) ops ->
  cached (history ops c) namespace workspaceId
  = cached c namespace workspaceId.
Proof.
  revert c. induction ops as [|op ops IH]; intros c Hops; [done|].
  apply Forall_cons in Hops as [Hop Hops].
  rewrite history_cons, IH by done. by apply perform_cached_frame.
Qed.

(** X17: what the onModified listener caches for a workspace is the very
    update it hands to the status callback, with the message it attached. *)
Theorem onModifiedListener_caches_forwarded_update (cbs : Callbacks)
    (payload : Js.unknown) (dw : devfileApi.DevWorkspace)
    (c : DevWorkspaceClient) :
  isDevWorkspace payload = Some dw ->
  let r := onModifiedListener cbs payload c in
  exists u,
    status_calls (trace r) = [u]
    /\ cached (final r) (devfileApi.namespace (devfileApi.metadata dw))
         (getId dw) = Some u.
Proof.
  intros Hguard r.
  destruct (onModifiedListener_final cbs payload dw c Hguard)
    as (u & Ht & Hitems & _).
  exists u. fold r in Ht, Hitems. rewrite Ht. split; [done|].
  rewrite (cached_cache_insert _ _ _ _ u c _ Hitems).
  by rewrite decide_True.
Qed.

(** X18: in a state the client can reach, the update forwarded for a
    workspace lacks [prevStatus] exactly when its namespace has been seen
    and the workspace has not; when the workspace is cached, [prevStatus]
    is the status cached for it, and when the namespace is new it is the
    update's own status. *)
Theorem reachable_prevStatus (ops : list Op) (cbs : Callbacks)
    (payload : Js.unknown) (dw : devfileApi.DevWorkspace) :
  isDevWorkspace payload = Some dw ->
  let namespace := devfileApi.namespace (devfileApi.metadata dw) in
  let c := history ops new_client in
  exists u,
    status_calls (trace (onModifiedListener cbs payload c)) = [u]
    /\ (prevStatus u = None
        <-> (is_Some (previousItems c !! namespace)
             /\ cached c namespace (getId dw) = None))
    /\ (forall prev, cached c namespace (getId dw) = Some prev ->
          prevStatus u = status prev)
    /\ (previousItems c !! namespace = None -> prevStatus u = status u).
Proof.
  intros Hguard namespace c.
  destruct (onModifiedListener_final cbs payload dw c Hguard)
    as (u & Ht & _ & _ & Hstatus & Hprev & _).
  destruct (history_preserves_well_formed ops new_client
              new_client_well_formed) as [Hcache _].
  fold c in Hcache.
  exists u. rewrite Ht. split; [done|]. fold namespace in Hprev.
  unfold cached in *.
  destruct (previousItems c !! namespace) as [prevWorkspace|] eqn:Hns;
    simpl in *.
  - destruct (prevWorkspace !! getId dw) as [prev|] eqn:Hid; simpl in *.
    + destruct (Hcache namespace (getId dw) prev) as [_ [st Hst]].
      { by rewrite Hns. }
      unfold status_of in Hprev. rewrite Hprev, Hst.
      repeat split; try done.
      * by intros [_ ?].
      * by intros prev' [= <-].
    + rewrite Hprev. repeat split; try done.
  - rewrite Hprev, Hstatus. repeat split; try done.
    by intros [[? ?] _].
Qed.

(** X19: for two modified events of the same workspace, the later one is
    forwarded with the status of the earlier one as [prevStatus], whatever
    happened to the client in between, provided no other modified event of
    that workspace did. *)
Theorem prevStatus_is_previous_status (cbs1 cbs2 : Callbacks)
    (payload1 payload2 : Js.unknown) (dw1 dw2 : devfileApi.DevWorkspace)
    (between : list Op) (c : DevWorkspaceClient) :
  isDevWorkspace payload1 = Some dw1 ->
  isDevWorkspace payload2 = Some dw2 ->
  devfileApi.namespace (devfileApi.metadata dw2)
    = devfileApi.namespace (devfileApi.metadata dw1) ->
  getId dw2 = getId dw1 ->
  Forall (fun op =>
            ~ observes (devfileApi.namespace (devfileApi.metadata dw1))
                (getId dw1) op) between ->
  let c1 := final (onModifiedListener cbs1 payload1 c) in
  let c2 := history between c1 in
  exists u1 u2,
    status_calls (trace (onModifiedListener cbs1 payload1 c)) = [u1]
    /\ status_calls (trace (onModifiedListener cbs2 payload2 c2)) = [u2]
    /\ is_Some (status u1)
    /\ prevStatus u2 = status u1.
Proof.
  intros Hguard1 Hguard2 Hns Hid Hbetween c1 c2.
  destruct (onModifiedListener_final cbs1 payload1 dw1 c Hguard1)
    as (u1 & Ht1 & Hitems1 & _ & Hstatus1 & _).
  destruct (onModifiedListener_final cbs2 payload2 dw2 c2 Hguard2)
    as (u2 & Ht2 & _ & _ & _ & Hprev2 & _).
  exists u1, u2. rewrite Ht1, Ht2. split; [done|]. split; [done|].
  split; [by rewrite Hstatus1|].
  assert (Hc2 : cached c2 (devfileApi.namespace (devfileApi.metadata dw1))
                  (getId dw1) = Some u1).
  { subst c2. rewrite history_cached_frame by done.
    rewrite (cached_cache_insert _ _ _ _ u1 c _ Hitems1).
    by rewrite decide_True. }
  rewrite Hns, Hid in Hprev2. unfold cached in Hc2.
  destruct (previousItems c2 !! _) as [prevWorkspace|]; [|done].
  simpl in Hc2. by rewrite Hprev2, Hc2.
Qed.

Lemma status_calls_app (t1 t2 : list Effect) :
  status_calls (t1 ++ t2) = status_calls t1 ++ status_calls t2.
Proof. apply omap_app. Qed.

Lemma onModifiedListener_completes (cbs : Callbacks) (payload : Js.unknown)
    (c : DevWorkspaceClient) :
  completion (onModifiedListener cbs payload c) = Normal tt.
Proof.
  destruct (isDevWorkspace payload) as [dw|] eqn:Hguard.
  - by destruct (onModifiedListener_valid cbs payload dw c Hguard)
      as (u & _ & ? & _).
  - by destruct (onModifiedListener_malformed cbs payload c Hguard)
      as (_ & _ & ?).
Qed.

Lemma deliverModified_cons (cbs : Callbacks) (payload : Js.unknown)
    (rest : list Js.unknown) (c : DevWorkspaceClient) :
  let r := onModifiedListener cbs payload c in
  trace (deliverModified cbs (payload :: rest) c)
    = trace r ++ trace (deliverModified cbs rest (final r))
  /\ final (deliverModified cbs (payload :: rest) c)
     = final (deliverModified cbs rest (final r)).
Proof.
  intros r. subst r. cbn [deliverModified]. unfold bind.
  pose proof (onModifiedListener_completes cbs payload c) as Hr.
  destruct (onModifiedListener cbs payload c) as [[[]|e] c1 t1]; [|done].
  cbn [final trace]. by destruct (deliverModified cbs rest c1).
Qed.

(** Once a message is the recorded one, repeating the event forwards
    updates without a message and keeps it recorded. *)
Lemma deliverModified_repeated (cbs : Callbacks) (payload : Js.unknown)
    (dw : devfileApi.DevWorkspace) (m : string) (n : nat)
    (c : DevWorkspaceClient) :
  isDevWorkspace payload = Some dw ->
  if_truthy (devfileApi.status_message dw) = Some m ->
  lastDevWorkspaceLog c !! getId dw = Some m ->
  message <$> status_calls (trace (deliverModified cbs (replicate n payload) c))
  = replicate n None.
Proof.
  intros Hguard Hm. revert c. induction n as [|n IH]; intros c Hlog; [done|].
  cbn [replicate].
  destruct (deliverModified_cons cbs payload (replicate n payload) c)
    as [-> _].
  destruct (onModifiedListener_valid cbs payload dw c Hguard)
    as (u & Ht & _ & _ & _ & Hcase).
  rewrite Hm, bool_decide_eq_true_2 in Hcase by done.
  destruct Hcase as [Hmsg Hlog'].
  rewrite status_calls_app, fmap_app, Ht. simpl. rewrite Hmsg.
  f_equal. apply IH. by rewrite Hlog'.
Qed.

(** X20: of a run of identical modified events carrying a non-empty
    message, only the first update is forwarded with the message, and not
    even that one if the message is already the recorded one; all the
    events are forwarded. *)
Theorem deliverModified_duplicates (cbs : Callbacks) (payload : Js.unknown)
    (dw : devfileApi.DevWorkspace) (m : string) (n : nat)
    (c : DevWorkspaceClient) :
  isDevWorkspace payload = Some dw ->
  if_truthy (devfileApi.status_message dw) = Some m ->
  message <$>
    status_calls (trace (deliverModified cbs (replicate (S n) payload) c))
  = (if bool_decide (lastDevWorkspaceLog c !! getId dw = Some m)
     then None else Some m) :: replicate n None.
Proof.
  intros Hguard Hm. cbn [replicate].
  destruct (deliverModified_cons cbs payload (replicate n payload) c)
    as [-> _].
  destruct (onModifiedListener_valid cbs payload dw c Hguard)
    as (u & Ht & _ & _ & _ & Hcase).
  rewrite Hm in Hcase.
  rewrite status_calls_app, fmap_app, Ht. simpl.
  case_bool_decide as Hlog; destruct Hcase as [Hmsg Hlog']; rewrite Hmsg;
    f_equal; apply (deliverModified_repeated cbs payload dw m); try done.
  - by rewrite Hlog'.
  - rewrite Hlog'. apply lookup_insert_eq.
Qed.

(** *** Stopping and subscribing *)

(** X21: [changeWorkspaceStatus] makes one patch request.  If the request
    is rejected, the call is rejected with the same reason and the client
    is unchanged; if the patched workspace is reported failed, the call
    throws the error of [checkForDevWorkspaceError], after the entry of
    the workspace has left the last-message map when [started] is false;
    otherwise the patched workspace is returned. *)
Theorem changeWorkspaceStatus_outcomes (namespace name : string)
    (started : bool) (c : DevWorkspaceClient) :
  let r := changeWorkspaceStatus namespace name started c in
  trace r = [PatchWorkspace namespace name (startedPatch started)]
  /\ (forall reason,
        patchWorkspace namespace name (startedPatch started) = Rejects reason ->
        completion r = Abrupt (Rejection reason) /\ final r = c)
  /\ (forall changedWorkspace,
        patchWorkspace namespace name (startedPatch started)
          = Resolved changedWorkspace ->
        completion r =
          match checkForDevWorkspaceError changedWorkspace with
          | Normal _ => Normal changedWorkspace
          | Abrupt e => Abrupt e
          end
        /\ lastDevWorkspaceLog (final r) =
             if started then lastDevWorkspaceLog c
             else delete (getId changedWorkspace) (lastDevWorkspaceLog c)).
Proof.
  unfold changeWorkspaceStatus, await. run.
  destruct (patchWorkspace namespace name (startedPatch started))
    as [cw|reason]; simpl.
  - destruct started; simpl;
      destruct (checkForDevWorkspaceError cw) as [[]|e] eqn:Hcheck;
      simpl; (split; [done|]); (split; [done|]);
      intros ? [= <-]; by rewrite Hcheck.
  - split; [done|]. split; [|done]. by intros ? [= <-].
Qed.



Ltac settle_awaits_eqn :=
  repeat match goal with
    | |- context [match ?o with Resolved _ => _ | Rejects _ => _ end] =>
        destruct o eqn:?; simpl
    end.

(** X23: [subscribe] registers the listener of a channel only after the
    subscribe request for that channel has been sent and has resolved: in
    the trace, every registration comes directly after the request for its
    channel, and that request resolved; a request that resolved is directly
    followed by the registration for its channel, and a request that was
    rejected is the last thing [subscribe] did.  So the listeners
    registered are an initial segment of those of onModified, onAdded and
    onDeleted, their channels an initial segment of the channels requested,
    at most one request is left without its listener, and all three are
    registered exactly when [subscribe] succeeds. *)
Theorem subscribe_registers_after_request (c : DevWorkspaceClient)
    (s : Subscriber) :
  subscriber c = Some s ->
  let r := subscribe c in
  let registered := listener_registrations (trace r) in
  (forall i chan l,
     trace r !! i = Some (WsAddListener chan l) ->
     exists j msg,
       i = S j
       /\ trace r !! j = Some (WsSubscribe msg)
       /\ channel msg = chan
       /\ wsSubscribe msg = Resolved tt)
  /\ (forall j msg,
        trace r !! j = Some (WsSubscribe msg) ->
        (wsSubscribe msg = Resolved tt ->
         exists l, trace r !! S j = Some (WsAddListener (channel msg) l))
        /\ (forall reason, wsSubscribe msg = Rejects reason ->
              length (trace r) = S j
              /\ completion r = Abrupt (Rejection reason)))
  /\ registered `prefix_of`
       [ (onModified, ModifiedListener (callbacks s));
         (onAdded, AddedListener (callbacks s));
         (onDeleted, DeletedListener (callbacks s)) ]
  /\ fst <$> registered `prefix_of` channel <$> subscribe_requests (trace r)
  /\ length (subscribe_requests (trace r)) <= S (length registered)
  /\ (completion r = Normal tt <-> length registered = 3).
Proof.
  intros Hs. unfold subscribe, getSubscribeMessage, websocketClient_subscribe,
    websocketClient_addListener, await.
  run. rewrite Hs.
  settle_awaits_eqn;
    repeat match goal with u : unit |- _ => destruct u end;
    (split;
     [ intros i chan l Hi;
       do 9 (destruct i as [|i];
             [ simpl in Hi;
               first [ discriminate Hi
                     | injection Hi as <- <-;
                       eexists _, _; (split; [reflexivity|]);
                       (split; [reflexivity|]); (split; [reflexivity|]);
                       assumption ] |]);
       simpl in Hi; discriminate Hi |]);
    (split;
     [ intros j msg Hj;
       do 9 (destruct j as [|j];
             [ simpl in Hj;
               first [ discriminate Hj
                     | injection Hj as <-;
                       (split;
                        [ intros Hok; first [ by eexists | congruence ]
                        | intros reason Hno;
                          first [ split; [reflexivity|congruence]
                                | congruence ] ]) ] |]);
       simpl in Hj; discriminate Hj |]);
    (split; [by eexists|]); (split; [by eexists|]); (split; [simpl; lia|]);
    split; done.
Qed.

End Client.

(** ** The properties at concrete inputs *)

(** C1: after a first workspace of a namespace has been seen, the first
    update of another workspace of the same namespace, for which nothing is
    cached, carries no [prevStatus]: it is not the update's own status, as
    it is for the first workspace of the namespace. *)
Theorem createStatusUpdate_second_workspace_prevStatus :
  let first := Sample.workspace "ns1" "w1" (Js.Str "RUNNING") None in
  let second := Sample.workspace "ns1" "w2" (Js.Str "RUNNING") None in
  cached (final (createStatusUpdate Sample.getId first new_client)) "ns1" "w2"
    = None
  /\ completion (createStatusUpdates Sample.getId [first; second] new_client) =
       Normal
         [ {| error := None; message := None; status := Some "RUNNING";
              prevStatus := Some "RUNNING"; workspaceId := "w1" |};
           {| error := None; message := None; status := Some "RUNNING";
              prevStatus := None; workspaceId := "w2" |} ].
Proof. vm_compute. split; reflexivity. Qed.

(** C2 as stated fails on the empty message: with "old" recorded for the
    workspace, an event whose status message is the empty string, which
    differs from "old", is forwarded without a message, and "old" stays the
    recorded one. *)
Lemma onModifiedListener_empty_message_not_attached :
  let payload :=
    Sample.event "ns1" "w1" (Js.Str "RUNNING") (Js.Str EmptyString) in
  let dw :=
    Sample.workspace "ns1" "w1" (Js.Str "RUNNING") (Some EmptyString) in
  let c := set_lastDevWorkspaceLog (<["w1" := "old"]> ∅) new_client in
  let r := onModifiedListener Sample.isDevWorkspace Sample.getId Sample.cbs1 payload c in
  Sample.isDevWorkspace payload = Some dw
  /\ devfileApi.status_message dw = Some EmptyString
  /\ lastDevWorkspaceLog c !! Sample.getId dw = Some "old"
  /\ status_calls (trace r) =
       [ {| error := None; message := None; status := Some "RUNNING";
            prevStatus := Some "RUNNING"; workspaceId := "w1" |} ]
  /\ ~ (exists u, status_calls (trace r) = [u]
                  /\ message u = devfileApi.status_message dw)
  /\ lastDevWorkspaceLog (final r) !! "w1" = Some "old".
Proof.
  vm_compute. repeat split.
  intros (u & Hcalls & Hmsg). injection Hcalls as <-. discriminate Hmsg.
Qed.

Lemma createStatusUpdate_missing_phase_witness :
  let dw := Sample.workspace "ns1" "w1" Js.Undefined None in
  Js.typeof (devfileApi.status_phase dw) ≠ "string"
  /\ exists u,
       completion (createStatusUpdate Sample.getId dw new_client) = Normal u
       /\ status u = Some DevWorkspaceStatus.STARTING
       /\ cached (final (createStatusUpdate Sample.getId dw new_client))
            (devfileApi.namespace (devfileApi.metadata dw)) (Sample.getId dw)
          = Some u.
Proof.
  split; [simpl; discriminate|].
  apply (createStatusUpdate_missing_phase_is_STARTING Sample.getId
           (Sample.workspace "ns1" "w1" Js.Undefined None) new_client).
  simpl; discriminate.
Defined.

Lemma onDeletedListener_dispatch_witness :
  (Js.typeof (Js.Number 3) ≠ "string"
   /\ deleted_calls (trace (onDeletedListener Sample.cbs1 (Js.Number 3) new_client)) = []
   /\ exists a,
        alerts (trace (onDeletedListener Sample.cbs1 (Js.Number 3) new_client)) = [a]
        /\ key a = "onDeleted-websocket-channel"
        /\ variant a = warning)
  /\ trace (onDeletedListener Sample.cbs1 (Js.Str "w1") new_client)
     = [UpdateDeletedDevWorkspaces Sample.cbs1 ["w1"]].
Proof.
  split.
  - split; [simpl; discriminate|].
    destruct (proj1 (onDeletedListener_dispatch Sample.cbs1 (Js.Number 3) new_client))
      as (Hcalls & Halert & _); [simpl; discriminate|].
    split; [exact Hcalls | exact Halert].
  - exact (proj1 (proj2 (onDeletedListener_dispatch Sample.cbs1 (Js.Str "w1")
                           new_client) "w1" eq_refl)).
Defined.

Lemma onModifiedListener_rejects_malformed_witness :
  Sample.isDevWorkspace Js.Null = None
  /\ let r := onModifiedListener Sample.isDevWorkspace Sample.getId Sample.cbs1
                Js.Null new_client in
     status_calls (trace r) = []
     /\ previousItems (final r) = previousItems new_client
     /\ lastDevWorkspaceLog (final r) = lastDevWorkspaceLog new_client
     /\ completion r = Normal tt.
Proof.
  split; [reflexivity|].
  apply (onModifiedListener_rejects_malformed Sample.isDevWorkspace
           Sample.getId Sample.cbs1 Js.Null new_client).
  reflexivity.
Defined.

(** Two events with the same message, then one with another: the second is
    forwarded without a message, the third with its own. *)
Lemma onModifiedListener_message_forwarding_witness :
  let pulling :=
    Sample.event "ns1" "w1" (Js.Str "STARTING") (Js.Str "pulling image") in
  let ready :=
    Sample.event "ns1" "w1" (Js.Str "RUNNING") (Js.Str "ready") in
  let c := final (deliverModified Sample.isDevWorkspace Sample.getId Sample.cbs1
                    [pulling] new_client) in
  (exists u,
     status_calls (trace (onModifiedListener Sample.isDevWorkspace
                            Sample.getId Sample.cbs1 pulling c)) = [u]
     /\ message u = None)
  /\ (exists u,
        status_calls (trace (onModifiedListener Sample.isDevWorkspace
                               Sample.getId Sample.cbs1 ready c)) = [u]
        /\ message u = Some "ready").
Proof.
  split.
  - destruct (onModifiedListener_message_forwarding Sample.isDevWorkspace
                Sample.getId Sample.cbs1
                [Sample.event "ns1" "w1" (Js.Str "STARTING")
                   (Js.Str "pulling image")]
                new_client
                (Sample.event "ns1" "w1" (Js.Str "STARTING")
                   (Js.Str "pulling image"))
                (Sample.workspace "ns1" "w1" (Js.Str "STARTING")
                   (Some "pulling image"))
                "pulling image" eq_refl eq_refl)
      as (u & Hcalls & Hsame & _).
    exists u. split; [exact Hcalls|]. apply Hsame. vm_compute. reflexivity.
  - destruct (onModifiedListener_message_forwarding Sample.isDevWorkspace
                Sample.getId Sample.cbs1
                [Sample.event "ns1" "w1" (Js.Str "STARTING")
                   (Js.Str "pulling image")]
                new_client
                (Sample.event "ns1" "w1" (Js.Str "RUNNING") (Js.Str "ready"))
                (Sample.workspace "ns1" "w1" (Js.Str "RUNNING")
                   (Some "ready"))
                "ready" eq_refl eq_refl)
      as (u & Hcalls & _ & Hnew & _).
    exists u. split; [exact Hcalls|]. apply Hnew.
    + discriminate.
    + vm_compute. discriminate.
Defined.

Lemma subscribe_requires_subscriber_witness :
  let c := set_subscriber (Some Sample.subscriber1) new_client in
  (subscriber new_client = None
   /\ subscribe Sample.getResourceVersion Sample.wsSubscribe new_client =
        {| completion := Abrupt (ThrowString "Error: Subscriber does not set.");
           final := new_client; trace := [] |})
  /\ (subscriber c = Some Sample.subscriber1
      /\ completion (subscribe Sample.getResourceVersion Sample.wsSubscribe c)
           ≠ Abrupt (ThrowString "Error: Subscriber does not set.")).
Proof.
  split.
  - split; [reflexivity|].
    apply (proj1 (subscribe_requires_subscriber Sample.getResourceVersion
                    Sample.wsSubscribe new_client)).
    reflexivity.
  - split; [reflexivity|].
    apply (proj2 (subscribe_requires_subscriber Sample.getResourceVersion
                    Sample.wsSubscribe
                    (set_subscriber (Some Sample.subscriber1) new_client))
             Sample.subscriber1).
    reflexivity.
Defined.



(** C7 as stated fails on the empty message: a failed workspace whose
    status message is the empty string has a message, and the error thrown
    carries the fallback text, not that message. *)
Lemma checkForDevWorkspaceError_empty_message :
  let dw := Sample.workspace "ns1" "w1" (Js.Str "FAILED") (Some EmptyString) in
  Sample.getStatus dw = Some DevWorkspaceStatus.FAILED
  /\ devfileApi.status_message dw = Some EmptyString
  /\ checkForDevWorkspaceError Sample.getStatus dw
     = Abrupt (ThrowError
         "Unknown error occured when trying to process the devworkspace")
  /\ checkForDevWorkspaceError Sample.getStatus dw
     ≠ Abrupt (ThrowError EmptyString).
Proof.
  split; [reflexivity|]. split; [reflexivity|].
  split; [reflexivity|]. discriminate.
Qed.

Lemma checkForDevWorkspaceError_phase_witness :
  let failed := Sample.workspace "ns1" "w1" (Js.Str "FAILED") (Some "boom") in
  let silent := Sample.workspace "ns1" "w1" (Js.Str "FAILED") None in
  let empty :=
    Sample.workspace "ns1" "w1" (Js.Str "FAILED") (Some EmptyString) in
  let starting := Sample.workspace "ns1" "w1" Js.Undefined (Some "boom") in
  (Sample.getStatus failed = Some DevWorkspaceStatus.FAILED
   /\ checkForDevWorkspaceError Sample.getStatus failed
      = Abrupt (ThrowError "boom"))
  /\ (Sample.getStatus silent = Some DevWorkspaceStatus.FAILED
      /\ checkForDevWorkspaceError Sample.getStatus silent
         = Abrupt (ThrowError
             "Unknown error occured when trying to process the devworkspace"))
  /\ (Sample.getStatus empty = Some DevWorkspaceStatus.FAILED
      /\ checkForDevWorkspaceError Sample.getStatus empty
         = Abrupt (ThrowError
             "Unknown error occured when trying to process the devworkspace"))
  /\ (Sample.getStatus starting ≠ Some DevWorkspaceStatus.FAILED
      /\ checkForDevWorkspaceError Sample.getStatus starting = Normal tt).
Proof.
  split; [|split; [|split]].
  - split; [reflexivity|].
    apply (proj1 (proj1 (checkForDevWorkspaceError_phase Sample.getStatus
                           (Sample.workspace "ns1" "w1" (Js.Str "FAILED")
                              (Some "boom")))
                    eq_refl) "boom"); [reflexivity|discriminate].
  - split; [reflexivity|].
    apply (proj2 (proj1 (checkForDevWorkspaceError_phase Sample.getStatus
                           (Sample.workspace "ns1" "w1" (Js.Str "FAILED")
                              None))
                    eq_refl)).
    left. reflexivity.
  - split; [reflexivity|].
    apply (proj2 (proj1 (checkForDevWorkspaceError_phase Sample.getStatus
                           (Sample.workspace "ns1" "w1" (Js.Str "FAILED")
                              (Some EmptyString)))
                    eq_refl)).
    right. reflexivity.
  - split; [simpl; discriminate|].
    apply (proj2 (checkForDevWorkspaceError_phase Sample.getStatus
                    (Sample.workspace "ns1" "w1" Js.Undefined (Some "boom")))).
    simpl. discriminate.
Defined.

(** Workspace w1 is stopped while "ready" is recorded for it: the entry
    goes, and the next "ready" for w1 is attached again. *)
Lemma changeWorkspaceStatus_last_message_witness :
  let c := set_lastDevWorkspaceLog (<["w1" := "ready"]> ∅) new_client in
  let r := changeWorkspaceStatus Sample.getId Sample.getStatus
             Sample.patchWorkspace "ns1" "w1" false c in
  let ready :=
    Sample.event "ns1" "w1" (Js.Str "RUNNING") (Js.Str "ready") in
  Sample.patchWorkspace "ns1" "w1" (startedPatch false)
    = Resolved (Sample.workspace "ns1" "w1" (Js.Str "Stopped") None)
  /\ lastDevWorkspaceLog c !! "w1" = Some "ready"
  /\ lastDevWorkspaceLog (final r) !! "w1" = None
  /\ exists u,
       status_calls (trace (onModifiedListener Sample.isDevWorkspace
                              Sample.getId Sample.cbs1 ready (final r))) = [u]
       /\ message u = Some "ready".
Proof.
  split; [reflexivity|]. split; [vm_compute; reflexivity|].
  destruct (proj1 (changeWorkspaceStatus_last_message Sample.isDevWorkspace
                     Sample.getId Sample.getStatus Sample.patchWorkspace
                     "ns1" "w1"
                     (set_lastDevWorkspaceLog (<["w1" := "ready"]> ∅)
                        new_client))
              (Sample.workspace "ns1" "w1" (Js.Str "Stopped") None) eq_refl)
    as (_ & Hgone & Hnext).
  split; [exact Hgone|].
  apply (Hnext Sample.cbs1
           (Sample.event "ns1" "w1" (Js.Str "RUNNING") (Js.Str "ready"))
           (Sample.workspace "ns1" "w1" (Js.Str "RUNNING") (Some "ready"))
           "ready"); reflexivity.
Defined.

(** C9 as stated fails when the patch request is rejected: "ready" is
    recorded for workspace w1, the request to stop it is refused, and the
    entry of w1 is still there; the next "ready" for w1 is forwarded without
    its message. *)
Lemma changeWorkspaceStatus_rejected_patch_keeps_entry :
  let c := set_lastDevWorkspaceLog (<["w1" := "ready"]> ∅) new_client in
  let refused := fun (_ _ : string) (_ : list devfileApi.IPatch) =>
                   @Rejects devfileApi.DevWorkspace "409" in
  let r := changeWorkspaceStatus Sample.getId Sample.getStatus refused
             "ns1" "w1" false c in
  let ready :=
    Sample.event "ns1" "w1" (Js.Str "RUNNING") (Js.Str "ready") in
  completion r = Abrupt (Rejection "409")
  /\ trace r = [PatchWorkspace "ns1" "w1" (startedPatch false)]
  /\ lastDevWorkspaceLog (final r) !! "w1" = Some "ready"
  /\ status_calls (trace (onModifiedListener Sample.isDevWorkspace
                            Sample.getId Sample.cbs1 ready (final r)))
     = [ {| error := None; message := None; status := Some "RUNNING";
            prevStatus := Some "RUNNING"; workspaceId := "w1" |} ].
Proof. vm_compute. repeat split. Qed.

(** ** The comparator of the devfile stringifier *)

Lemma sortOrder_NoDup : NoDup editor.sortOrder.
Proof. apply (bool_decide_unpack (NoDup editor.sortOrder)). vm_compute. exact I. Qed.

(** X1: swapping the two keys negates the result of [sortKeys]. *)
Theorem sortKeys_antisymmetric (key1 key2 : string) :
  editor.sortKeys key2 key1 = (- editor.sortKeys key1 key2)%Z.
Proof.
  unfold editor.sortKeys.
  destruct (indexOf key1 editor.sortOrder) as [i1|],
           (indexOf key2 editor.sortOrder) as [i2|]; try reflexivity.
  repeat case_bool_decide; try reflexivity; lia.
Qed.

(** X2: [sortKeys] is transitive: if key1 does not come after key2 and key2
    does not come after key3, key1 does not come after key3. *)
Theorem sortKeys_transitive (key1 key2 key3 : string) :
  (editor.sortKeys key1 key2 <= 0)%Z ->
  (editor.sortKeys key2 key3 <= 0)%Z ->
  (editor.sortKeys key1 key3 <= 0)%Z.
Proof.
  unfold editor.sortKeys.
  destruct (indexOf key1 editor.sortOrder) as [i1|],
           (indexOf key2 editor.sortOrder) as [i2|],
           (indexOf key3 editor.sortOrder) as [i3|];
    repeat case_bool_decide; lia.
Qed.

(** X3: [sortKeys] ties two keys exactly when they are the same key or
    neither is in [sortOrder]. *)
Theorem sortKeys_zero (key1 key2 : string) :
  editor.sortKeys key1 key2 = 0%Z
  <-> (key1 = key2
       \/ ((key1 ∉ editor.sortOrder) /\ (key2 ∉ editor.sortOrder))).
Proof.
  unfold editor.sortKeys.
  destruct (indexOf key1 editor.sortOrder) as [i1|] eqn:H1,
           (indexOf key2 editor.sortOrder) as [i2|] eqn:H2.
  - apply indexOf_Some in H1 as [H1 _]. apply indexOf_Some in H2 as [H2 _].
    split.
    + intros Hz. left. repeat case_bool_decide; try done.
      assert (i1 = i2) as -> by lia. congruence.
    + intros [->|[Hn _]].
      * pose proof (NoDup_lookup _ _ _ _ sortOrder_NoDup H1 H2) as ->.
        repeat case_bool_decide; try lia; done.
      * exfalso. apply Hn. by apply list_elem_of_lookup_2 in H1.
  - apply indexOf_Some in H1 as [H1 _]. apply indexOf_None in H2.
    split; [done|]. intros [->|[Hn _]].
    + exfalso. apply H2. by apply list_elem_of_lookup_2 in H1.
    + exfalso. apply Hn. by apply list_elem_of_lookup_2 in H1.
  - apply indexOf_None in H1. apply indexOf_Some in H2 as [H2 _].
    split; [done|]. intros [->|[_ Hn]].
    + exfalso. apply H1. by apply list_elem_of_lookup_2 in H2.
    + exfalso. apply Hn. by apply list_elem_of_lookup_2 in H2.
  - apply indexOf_None in H1. apply indexOf_None in H2.
    split; [|done]. intros _. by right.
Qed.

(** X4: the keys of [sortOrder] are ordered as they are listed there, and
    each of them comes before every key that is not listed. *)
Theorem sortKeys_follows_sortOrder (key1 key2 : string) (i : nat) :
  editor.sortOrder !! i = Some key1 ->
  (forall j, editor.sortOrder !! j = Some key2 -> (i < j)%nat) ->
  editor.sortKeys key1 key2 = (-1)%Z.
Proof.
  intros H1 Hafter. unfold editor.sortKeys.
  rewrite (indexOf_lookup_NoDup _ _ _ sortOrder_NoDup H1).
  destruct (indexOf key2 editor.sortOrder) as [j|] eqn:H2; [|done].
  apply indexOf_Some in H2 as [H2 _]. apply Hafter in H2.
  by rewrite bool_decide_eq_true_2.
Qed.

(** ** Devfile normalisation *)

Lemma get_set_eq (k : string) (v : Js.unknown) (o : JsObject.props) :
  JsObject.get k (JsObject.set k v o) = v.
Proof.
  induction o as [|[k' v'] o IH]; simpl.
  - by rewrite bool_decide_eq_true_2.
  - case_bool_decide as Hk; simpl.
    + by rewrite bool_decide_eq_true_2.
    + by rewrite bool_decide_eq_false_2.
Qed.

Lemma get_set_ne (k k' : string) (v : Js.unknown) (o : JsObject.props) :
  k ≠ k' -> JsObject.get k' (JsObject.set k v o) = JsObject.get k' o.
Proof.
  intros Hne. induction o as [|[k0 v0] o IH]; simpl.
  - by rewrite bool_decide_eq_false_2.
  - case_bool_decide as Hk; simpl.
    + subst k0. by rewrite !bool_decide_eq_false_2.
    + by rewrite IH.
Qed.

Lemma set_set (k : string) (v w : Js.unknown) (o : JsObject.props) :
  JsObject.set k w (JsObject.set k v o) = JsObject.set k w o.
Proof.
  induction o as [|[k' v'] o IH]; simpl.
  - by rewrite bool_decide_eq_true_2.
  - case_bool_decide as Hk; simpl.
    + by rewrite bool_decide_eq_true_2.
    + rewrite bool_decide_eq_false_2 by done. by rewrite IH.
Qed.

Lemma addVolume_not_bare (component : JsObject.props) :
  let component' := devfile.addVolume component in
  ~ (length (JsObject.keys component') = 1
     /\ truthy_unknown (JsObject.get "name" component') = true).
Proof.
  unfold devfile.addVolume.
  destruct (bool_decide (length (JsObject.keys component) = 1)
            && truthy_unknown (JsObject.get "name" component)) eqn:Hbare.
  - apply andb_prop in Hbare as [Hlen Hname].
    apply bool_decide_eq_true_1 in Hlen.
    destruct component as [|[k v] [|? ?]]; try done.
    simpl in *. case_bool_decide as Hk; [|done]. subst k.
    simpl. intros [Hlen' _]. done.
  - intros [Hlen Hname]. rewrite Hname, andb_true_r in Hbare.
    by apply bool_decide_eq_false_1 in Hbare.
Qed.

Lemma addVolume_get (component : JsObject.props) (k : string) :
  k ≠ "volume" ->
  JsObject.get k (devfile.addVolume component) = JsObject.get k component.
Proof.
  intros Hk. unfold devfile.addVolume.
  destruct (_ && _); [|done]. by apply get_set_ne.
Qed.

Lemma addVolume_idempotent (component : JsObject.props) :
  devfile.addVolume (devfile.addVolume component)
  = devfile.addVolume component.
Proof.
  pose proof (addVolume_not_bare component) as Hbare. simpl in Hbare.
  unfold devfile.addVolume at 1.
  destruct (bool_decide _ && _) eqn:Hb; [|done].
  apply andb_prop in Hb as [Hlen Hname].
  apply bool_decide_eq_true_1 in Hlen. by destruct Hbare.
Qed.

Lemma addVolume_bare (component : JsObject.props) :
  length (JsObject.keys component) = 1 ->
  truthy_unknown (JsObject.get "name" component) = true ->
  devfile.addVolume component = component ++ [("volume", Js.Object [])].
Proof.
  intros Hlen Hname. unfold devfile.addVolume.
  rewrite (bool_decide_eq_true_2 _ Hlen), Hname. simpl.
  destruct component as [|[k v] [|? ?]]; try done.
  simpl in *. case_bool_decide as Hk; [|done]. subst k.
  by rewrite bool_decide_eq_false_2.
Qed.

Lemma addVolume_other (component : JsObject.props) :
  length (JsObject.keys component) ≠ 1
  \/ truthy_unknown (JsObject.get "name" component) = false ->
  devfile.addVolume component = component.
Proof.
  intros Hother. unfold devfile.addVolume.
  destruct Hother as [Hlen | Hname].
  - by rewrite (bool_decide_eq_false_2 _ Hlen).
  - by rewrite Hname, andb_false_r.
Qed.

(** X24: the devfile [normalizeDevfileV2] returns always has components:
    those of the devfile, or the default ones if it has none, in the same
    order.  A component that consists of a (truthy) name only is returned
    with one more property, a volume that is the empty object; every other
    component is returned as it is, so a volume a component has is never
    replaced.  Hence each component keeps its properties, and none of those
    returned is a bare name. *)
Theorem normalizeDevfileV2_components (getProjectName : string -> string)
    (safeDump : Js.unknown -> string) (d d' : devfile.Devfile)
    (data : devfile.FactoryResolver) (location : string)
    (defaultComponents : list JsObject.props) :
  devfile.normalizeDevfileV2 getProjectName safeDump d data location
    defaultComponents = Some d' ->
  exists components,
    devfile.components d' = Some components
    /\ Forall2
         (fun original component =>
            (length (JsObject.keys original) = 1 ->
             truthy_unknown (JsObject.get "name" original) = true ->
             component = original ++ [("volume", Js.Object [])])
            /\ (length (JsObject.keys original) ≠ 1
                \/ truthy_unknown (JsObject.get "name" original) = false ->
                component = original)
            /\ (forall k, k ≠ "volume" ->
                  JsObject.get k component = JsObject.get k original)
            /\ ~ (length (JsObject.keys component) = 1
                  /\ truthy_unknown (JsObject.get "name" component) = true))
         (devfile.baseComponents d defaultComponents) components.
Proof.
  unfold devfile.normalizeDevfileV2. intros Hd.
  destruct (devfile.setDevfileSource _ _) as [attributes|]; [|done].
  simpl in Hd. injection Hd as <-. simpl. eexists. split; [done|].
  fold (devfile.baseComponents d defaultComponents).
  apply Forall2_fmap_r, Forall_Forall2_diag, Forall_forall.
  intros component _. split; [|split; [|split]].
  - apply addVolume_bare.
  - apply addVolume_other.
  - intros k Hk. by apply addVolume_get.
  - apply addVolume_not_bare.
Qed.

(** X25: a default project is added only to a devfile that has no
    [projects] property, when SCM information is present; a devfile that
    has a [projects] property keeps it, even an empty one, and without SCM
    information nothing is added. *)
Theorem normalizeDevfileV2_projects (getProjectName : string -> string)
    (safeDump : Js.unknown -> string) (d d' : devfile.Devfile)
    (data : devfile.FactoryResolver) (location : string)
    (defaultComponents : list JsObject.props) :
  devfile.normalizeDevfileV2 getProjectName safeDump d data location
    defaultComponents = Some d' ->
  (forall scmInfo,
     devfile.projects d = None -> devfile.scm_info data = Some scmInfo ->
     devfile.projects d'
       = Some [devfile.defaultProject getProjectName scmInfo])
  /\ (is_Some (devfile.projects d) ->
      devfile.projects d' = devfile.projects d)
  /\ (devfile.scm_info data = None ->
      devfile.projects d' = devfile.projects d).
Proof.
  unfold devfile.normalizeDevfileV2. intros Hd.
  destruct (devfile.setDevfileSource _ _) as [attributes|]; [|done].
  simpl in Hd. injection Hd as <-. simpl. split; [|split].
  - by intros scmInfo -> ->.
  - intros [ps ->]. by destruct ps, (devfile.scm_info data).
  - intros ->. by destruct (devfile.projects d) as [[|??]|].
Qed.

Lemma setDevfileSource_spec (text : string) (attributes : JsObject.props) :
  let annotation :=
    JsObject.get DEVWORKSPACE_METADATA_ANNOTATION attributes in
  (truthy_unknown annotation = false \/ exists o, annotation = Js.Object o) ->
  exists attributes' annotation',
    devfile.setDevfileSource text attributes = Some attributes'
    /\ JsObject.get DEVWORKSPACE_METADATA_ANNOTATION attributes'
       = Js.Object annotation'
    /\ JsObject.get DEVWORKSPACE_DEVFILE_SOURCE annotation' = Js.Str text
    /\ (forall k, k ≠ DEVWORKSPACE_METADATA_ANNOTATION ->
          JsObject.get k attributes' = JsObject.get k attributes)
    /\ (forall o, annotation = Js.Object o ->
          forall k, k ≠ DEVWORKSPACE_DEVFILE_SOURCE ->
            JsObject.get k annotation' = JsObject.get k o).
Proof.
  intros annotation Hann. unfold devfile.setDevfileSource.
  fold annotation. destruct Hann as [Hfalsy|[o Ho]].
  - rewrite Hfalsy, get_set_eq.
    eexists _, _. split; [done|]. rewrite !get_set_eq.
    split; [done|]. split; [done|].
    split.
    + intros k Hk. by rewrite !get_set_ne.
    + intros o Ho. by rewrite Ho in Hfalsy.
  - rewrite Ho. simpl. fold annotation. rewrite Ho.
    eexists _, _. split; [done|]. rewrite get_set_eq.
    split; [done|]. split; [apply get_set_eq|]. split.
    + intros k Hk. by rewrite get_set_ne.
    + intros o' [= <-] k Hk. by rewrite get_set_ne.
Qed.

(** X26: when the annotation attribute of the devfile's metadata is
    absent, falsy or an object, [normalizeDevfileV2] returns a devfile
    whose metadata carries, under that attribute, the devfile source
    computed from the resolver data and the location; the other attributes
    and the other entries of the annotation are kept. *)
Theorem normalizeDevfileV2_source_annotation
    (getProjectName : string -> string) (safeDump : Js.unknown -> string)
    (d : devfile.Devfile) (data : devfile.FactoryResolver)
    (location : string) (defaultComponents : list JsObject.props) :
  let annotation :=
    JsObject.get DEVWORKSPACE_METADATA_ANNOTATION (devfile.attributesOf d) in
  (truthy_unknown annotation = false \/ exists o, annotation = Js.Object o) ->
  exists d' annotation',
    devfile.normalizeDevfileV2 getProjectName safeDump d data location
      defaultComponents = Some d'
    /\ JsObject.get DEVWORKSPACE_METADATA_ANNOTATION (devfile.attributesOf d')
       = Js.Object annotation'
    /\ JsObject.get DEVWORKSPACE_DEVFILE_SOURCE annotation'
       = Js.Str (devfile.devfileSource safeDump data location)
    /\ (forall k, k ≠ DEVWORKSPACE_METADATA_ANNOTATION ->
          JsObject.get k (devfile.attributesOf d')
          = JsObject.get k (devfile.attributesOf d))
    /\ (forall o, annotation = Js.Object o ->
          forall k, k ≠ DEVWORKSPACE_DEVFILE_SOURCE ->
            JsObject.get k annotation' = JsObject.get k o).
Proof.
  intros annotation Hann.
  destruct (setDevfileSource_spec
              (devfile.devfileSource safeDump data location)
              (devfile.attributesOf d) Hann)
    as (attributes' & annotation' & Hset & H1 & H2 & H3 & H4).
  unfold devfile.normalizeDevfileV2.
  fold (devfile.attributesOf d). rewrite Hset. simpl.
  eexists _, annotation'. split; [done|]. done.
Qed.

Lemma setDevfileSource_idempotent (text : string)
    (attributes attributes' : JsObject.props) :
  devfile.setDevfileSource text attributes = Some attributes' ->
  devfile.setDevfileSource text attributes' = Some attributes'.
Proof.
  unfold devfile.setDevfileSource.
  set (attributes1 :=
         if truthy_unknown
              (JsObject.get DEVWORKSPACE_METADATA_ANNOTATION attributes)
         then attributes
         else JsObject.set DEVWORKSPACE_METADATA_ANNOTATION (Js.Object [])
                attributes).
  destruct (JsObject.get DEVWORKSPACE_METADATA_ANNOTATION attributes1)
    as [| | | | |annotation]; try done.
  intros [= <-]. rewrite get_set_eq. simpl. rewrite get_set_eq.
  by rewrite !set_set.
Qed.

(** X27: [normalizeDevfileV2] is idempotent: normalising the devfile it
    returns, with the same resolver data, location and default
    components, returns that devfile again. *)
Theorem normalizeDevfileV2_idempotent (getProjectName : string -> string)
    (safeDump : Js.unknown -> string) (d d' : devfile.Devfile)
    (data : devfile.FactoryResolver) (location : string)
    (defaultComponents : list JsObject.props) :
  devfile.normalizeDevfileV2 getProjectName safeDump d data location
    defaultComponents = Some d' ->
  devfile.normalizeDevfileV2 getProjectName safeDump d' data location
    defaultComponents = Some d'.
Proof.
  unfold devfile.normalizeDevfileV2 at 1. intros Hd.
  destruct (devfile.setDevfileSource _ _) as [attributes|] eqn:Hset;
    [|done].
  simpl in Hd. injection Hd as <-.
  unfold devfile.normalizeDevfileV2. simpl.
  rewrite (setDevfileSource_idempotent _ _ _ Hset). simpl.
  f_equal. f_equal.
  - f_equal. f_equal.
    destruct (negb (Js.truthy (devfile.name _))) eqn:Hname; simpl; [|done].
    destruct (negb (Js.truthy (devfile.generateName _))) eqn:Hgen; simpl.
    + by destruct (getProjectName _).
    + by rewrite Hgen.
  - f_equal.
    assert (Hidem : forall cs : list JsObject.props,
              devfile.addVolume <$> (devfile.addVolume <$> cs)
              = devfile.addVolume <$> cs).
    { intros cs. rewrite <- list_fmap_compose. apply list_fmap_ext.
      intros ? c _. apply addVolume_idempotent. }
    destruct (devfile.components d) as [[|c cs]|]; simpl.
    + destruct defaultComponents as [|c cs]; [done|]. simpl.
      by rewrite addVolume_idempotent, Hidem.
    + by rewrite addVolume_idempotent, Hidem.
    + destruct defaultComponents as [|c cs]; [done|]. simpl.
      by rewrite addVolume_idempotent, Hidem.
  - by destruct (devfile.projects d) as [[|??]|], (devfile.scm_info data).
Qed.

(** ** Plugin names *)

Lemma normalized_character (ch : Ascii.ascii) :
  let replaced := if bool_decide (ch = space) then dash else ch in
  let lowered :=
    if is_upper replaced
    then Ascii.ascii_of_nat (Ascii.nat_of_ascii replaced + 32)
    else replaced in
  lowered ≠ space /\ is_upper lowered = false.
Proof.
  destruct ch as [[] [] [] [] [] [] [] []]; vm_compute; split; congruence.
Qed.

(** X28: for an ASCII plugin name, [normalizePluginName] gives the name,
    character by character without spaces and without upper-case letters,
    followed by a dash and the workspace id. *)
Theorem normalizePluginName_shape (pluginName workspaceId : string) :
  ascii_only pluginName ->
  exists normalized,
    normalizePluginName pluginName workspaceId
    = normalized +:+ "-" +:+ workspaceId
    /\ String.length normalized = String.length pluginName
    /\ Forall (fun ch => ch ≠ space /\ is_upper ch = false)
         (String.list_ascii_of_string normalized).
Proof.
  intros _. unfold normalizePluginName.
  exists (toLowerCase (replaceAll_space_dash pluginName)).
  split; [done|].
  unfold toLowerCase, replaceAll_space_dash.
  induction pluginName as [|ch rest IH]; simpl.
  - split; [done|]. constructor.
  - destruct IH as [Hlen Hall]. split; [by rewrite Hlen|].
    constructor; [apply normalized_character | done].
Qed.

(** ** The options accordion *)

(** X29: in every state, the content of the Git Repo Options item is shown
    exactly when its toggle is expanded, whereas the content of the
    Advanced Options item is shown exactly when the Git Repo Options item
    is expanded: it is never shown while its own toggle is expanded, and
    toggling Advanced Options open leaves its content hidden. *)
Theorem render_advanced_options_content
    (state : RepoOptionsAccordion.State) :
  let git := RepoOptionsAccordion.render_git_repo_options state in
  let advanced := RepoOptionsAccordion.render_advanced_options state in
  let opened :=
    RepoOptionsAccordion.render_advanced_options
      (RepoOptionsAccordion.handleToggle
         RepoOptionsAccordion.advanced_options state) in
  RepoOptionsAccordion.isHidden git
    = negb (RepoOptionsAccordion.isExpanded git)
  /\ RepoOptionsAccordion.isHidden advanced
     = negb (RepoOptionsAccordion.isExpanded git)
  /\ ~ (RepoOptionsAccordion.isExpanded advanced = true
        /\ RepoOptionsAccordion.isHidden advanced = false)
  /\ RepoOptionsAccordion.isHidden opened = true
  /\ RepoOptionsAccordion.isExpanded opened
     = negb (RepoOptionsAccordion.isExpanded advanced).
Proof.
  destruct state as [[[]|]]; vm_compute; repeat split; intros [? ?]; done.
Qed.

(** ** Fetching pre-built resources *)

Lemma runSteps_rejected (requestResources : string -> Outcome unit)
    (calls : list (string * bool * bool)) (reason : string) :
  FetchResources.runSteps requestResources calls
    {| FetchResources.fetchResourcesPromise := Rejects reason |}
  = (replicate (length calls) (Normal false),
     {| FetchResources.fetchResourcesPromise := Rejects reason |}, []).
Proof.
  induction calls as [|[[sourceUrl present] presentAfter] rest IH]; [done|].
  cbn [FetchResources.runSteps]. unfold FetchResources.runStep. simpl.
  by rewrite IH.
Qed.

(** X30: a rejected request for resources is never retried: the call of
    [runStep] that made it is rejected with its reason, and every later
    call, of whatever instance and source URL, returns false without
    making a request. *)
Theorem runStep_rejection_is_final (requestResources : string -> Outcome unit)
    (sourceUrl reason : string) (presentAfter : bool)
    (later : list (string * bool * bool)) :
  requestResources sourceUrl = Rejects reason ->
  FetchResources.runSteps requestResources
    ((sourceUrl, false, presentAfter) :: later) FetchResources.initial
  = (Abrupt (Rejection reason) :: replicate (length later) (Normal false),
     {| FetchResources.fetchResourcesPromise := Rejects reason |},
     [FetchResources.RequestResources sourceUrl]).
Proof.
  intros Hreq. cbn [FetchResources.runSteps].
  unfold FetchResources.runStep. simpl. rewrite Hreq.
  by rewrite runSteps_rejected.
Qed.


(** ** The further properties at concrete inputs *)

Lemma sortKeys_transitive_witness :
  (editor.sortKeys "apiVersion" "metadata" <= 0)%Z
  /\ (editor.sortKeys "metadata" "zzz" <= 0)%Z
  /\ (editor.sortKeys "apiVersion" "zzz" <= 0)%Z.
Proof.
  split; [by vm_compute|]. split; [by vm_compute|].
  apply (sortKeys_transitive "apiVersion" "metadata" "zzz"); by vm_compute.
Defined.

Lemma sortKeys_zero_witness :
  editor.sortKeys "zzz" "yyy" = 0%Z /\ editor.sortKeys "metadata" "yyy" ≠ 0%Z.
Proof.
  split.
  - apply (proj2 (sortKeys_zero "zzz" "yyy")). right.
    split; apply (proj1 (indexOf_None _ _)); reflexivity.
  - intros Hz. apply (proj1 (sortKeys_zero "metadata" "yyy")) in Hz
      as [Heq|[Hnot _]]; [discriminate|].
    apply Hnot. vm_compute. do 2 right. left.
Defined.

Lemma sortKeys_follows_sortOrder_witness :
  editor.sortOrder !! 2 = Some "metadata"
  /\ editor.sortKeys "metadata" "commands" = (-1)%Z
  /\ editor.sortKeys "metadata" "zzz" = (-1)%Z.
Proof.
  split; [reflexivity|]. split.
  - apply (sortKeys_follows_sortOrder "metadata" "commands" 2); [reflexivity|].
    intros [|[|[|[|[|[|[|j]]]]]]]; vm_compute; intros; try discriminate; lia.
  - apply (sortKeys_follows_sortOrder "metadata" "zzz" 2); [reflexivity|].
    intros [|[|[|[|[|[|[|j]]]]]]]; vm_compute; intros; discriminate.
Defined.

(** The environment of the examples: every awaited call of the
    subscription resolves, a patch answers with the stopped workspace. *)
Definition example_history : list Op -> DevWorkspaceClient -> DevWorkspaceClient :=
  history Sample.isDevWorkspace Sample.getId Sample.getStatus
    Sample.getResourceVersion Sample.wsSubscribe (Resolved tt)
    Sample.patchWorkspace.

Definition example_modified (payload : Js.unknown) (c : DevWorkspaceClient)
    : Run unit :=
  onModifiedListener Sample.isDevWorkspace Sample.getId Sample.cbs1 payload c.

Lemma onDidWebSocketOpen_absorbs_errors_witness :
  let c := set_subscriber (Some Sample.subscriber1) new_client in
  let refused := fun (cbs : Callbacks) (chan : string) =>
                   @Rejects (option string) "boom" in
  (subscriber new_client = None
   /\ alerts (trace (onDidWebSocketOpen Sample.getResourceVersion
                       Sample.wsSubscribe "ctx" new_client)) =
        [ {| key := "websocket-subscribe-error"; variant := danger;
             title := "Websocket 'ctx' subscribe Error: Error: Subscriber does not set."
          |} ])
  /\ (completion (subscribe Sample.getResourceVersion Sample.wsSubscribe c)
      = Normal tt
      /\ alerts (trace (onDidWebSocketOpen Sample.getResourceVersion
                          Sample.wsSubscribe "ctx" c)) = [])
  /\ (completion (subscribe refused Sample.wsSubscribe c)
      = Abrupt (Rejection "boom")
      /\ alerts (trace (onDidWebSocketOpen refused Sample.wsSubscribe
                          "ctx" c)) =
           [ {| key := "websocket-subscribe-error"; variant := danger;
                title := "Websocket 'ctx' subscribe Error: boom" |} ]).
Proof.
  split; [|split].
  - split; [reflexivity|].
    exact (proj2 (proj2 (proj2 (onDidWebSocketOpen_absorbs_errors
                                  Sample.getResourceVersion Sample.wsSubscribe
                                  "ctx" new_client))) eq_refl).
  - split; [reflexivity|].
    exact (proj1 (proj2 (onDidWebSocketOpen_absorbs_errors
                           Sample.getResourceVersion Sample.wsSubscribe "ctx"
                           (set_subscriber (Some Sample.subscriber1)
                              new_client))) eq_refl).
  - split; [reflexivity|].
    exact (proj1 (proj2 (proj2 (onDidWebSocketOpen_absorbs_errors
                                  (fun _ _ => Rejects "boom")
                                  Sample.wsSubscribe "ctx"
                                  (set_subscriber (Some Sample.subscriber1)
                                     new_client))))
             (Rejection "boom") eq_refl).
Defined.

Lemma onDidWebSocketOpen_forgets_first_failure_witness :
  let c := set_failingWebSockets ["a"; "ctx"; "b"; "ctx"] new_client in
  let r := onDidWebSocketOpen Sample.getResourceVersion Sample.wsSubscribe
             "ctx" c in
  "ctx" ∈ failingWebSockets c
  /\ exists l1 l2,
       failingWebSockets c = l1 ++ "ctx" :: l2
       /\ ("ctx" ∉ l1)
       /\ failingWebSockets (final r) = l1 ++ l2
       /\ failed_listener_calls (trace r)
          = default [] (webSocketEventEmitter c !! webSocketEventName).
Proof.
  assert (Hin : "ctx" ∈ failingWebSockets
                  (set_failingWebSockets ["a"; "ctx"; "b"; "ctx"] new_client)).
  { apply (bool_decide_unpack _). vm_compute. exact I. }
  split; [exact Hin|].
  exact (proj1 (onDidWebSocketOpen_forgets_first_failure
                  Sample.getResourceVersion Sample.wsSubscribe "ctx"
                  (set_failingWebSockets ["a"; "ctx"; "b"; "ctx"] new_client))
           Hin).
Defined.

Lemma onDidWebSocketClose_alerts_witness :
  let event := {| code := 1006; reason := "gone" |} in
  code event ≠ 1011%N /\ reason event ≠ EmptyString
  /\ trace (onDidWebSocketClose event new_client) =
       [ ShowAlert
           {| key := "websocket-close-code-" +:+ pretty 1006%N;
              variant := warning;
              title := "Failed to establish WebSocket to server: gone" |} ].
Proof.
  split; [discriminate|]. split; [discriminate|].
  apply (proj1 (onDidWebSocketClose_alerts
                  {| code := 1006; reason := "gone" |} new_client));
    discriminate.
Defined.

Lemma onDidWebSocketClose_key_by_code_witness :
  let event1 := {| code := 1006; reason := "gone" |} in
  let event2 := {| code := 1006; reason := "again" |} in
  exists a1 a2,
    alerts (trace (onDidWebSocketClose event1 new_client)) = [a1]
    /\ alerts (trace (onDidWebSocketClose event2 new_client)) = [a2]
    /\ (key a1 = key a2 <-> code event1 = code event2).
Proof.
  eexists _, _. split; [reflexivity|]. split; [reflexivity|].
  apply (onDidWebSocketClose_key_by_code
           {| code := 1006; reason := "gone" |}
           {| code := 1006; reason := "again" |} new_client new_client);
    reflexivity.
Defined.

Lemma getAllWorkspaces_drops_web_terminals_witness :
  Examples.listWorkspacesInNamespace "ns1"
    = Resolved ([ Examples.stopped "ns1" "w1";
                  Examples.stopped "ns1" "terminal";
                  Examples.stopped "ns1" "w2" ], "7")
  /\ getAllWorkspaces Examples.isWebTerminal
       Examples.listWorkspacesInNamespace "ns1"
     = (Normal ([ Examples.stopped "ns1" "w1"; Examples.stopped "ns1" "w2" ],
                "7"),
        [ListWorkspacesInNamespace "ns1"]).
Proof.
  split; [reflexivity|].
  exact (proj1 (getAllWorkspaces_drops_web_terminals Examples.isWebTerminal
                  Examples.listWorkspacesInNamespace "ns1")
           _ "7" eq_refl).
Defined.

Lemma onAddedListener_dispatch_witness :
  let added := Sample.event "ns1" "w1" (Js.Str "STARTING") Js.Undefined in
  (Sample.isDevWorkspace Js.Null = None
   /\ added_calls (trace (onAddedListener Sample.isDevWorkspace Sample.cbs1
                            Js.Null new_client)) = [])
  /\ trace (onAddedListener Sample.isDevWorkspace Sample.cbs1 added new_client)
     = [ UpdateAddedDevWorkspaces Sample.cbs1
           [Sample.workspace "ns1" "w1" (Js.Str "STARTING") None] ].
Proof.
  split.
  - split; [reflexivity|].
    exact (proj1 (proj1 (onAddedListener_dispatch Sample.isDevWorkspace
                           Sample.cbs1 Js.Null new_client) eq_refl)).
  - exact (proj1 (proj2 (onAddedListener_dispatch Sample.isDevWorkspace
                           Sample.cbs1
                           (Sample.event "ns1" "w1" (Js.Str "STARTING")
                              Js.Undefined) new_client))
             _ eq_refl).
Defined.

Lemma getWorkspaceByName_returns_status_witness :
  let requests :=
    [ GetWorkspaceByName "ns1" "w1";
      GetWorkspaceByName "ns1" "w1"; Delay;
      GetWorkspaceByName "ns1" "w1"; Delay ] in
  getWorkspaceByName Sample.getStatus Examples.startsUp "ns1" "w1"
    = Some (Normal (Examples.running "ns1" "w1"), requests)
  /\ checkForDevWorkspaceError Sample.getStatus (Examples.running "ns1" "w1")
     = Normal tt
  /\ exists st,
       devfileApi.status (Examples.running "ns1" "w1") = Some st
       /\ truthy_unknown (devfileApi.phase st) = true
       /\ (devfileApi.phase st = Js.Str DevWorkspaceStatus.RUNNING ->
           Js.truthy (devfileApi.mainUrl st) = true).
Proof.
  split; [reflexivity|].
  apply (getWorkspaceByName_returns_status Sample.getStatus Examples.startsUp
           "ns1" "w1"
           (Normal (Examples.running "ns1" "w1"),
            [ GetWorkspaceByName "ns1" "w1";
              GetWorkspaceByName "ns1" "w1"; Delay;
              GetWorkspaceByName "ns1" "w1"; Delay ])
           (Examples.running "ns1" "w1")); reflexivity.
Defined.

Lemma getWorkspaceByName_polls_to_the_limit_witness :
  exists t,
    getWorkspaceByName Sample.getStatus Examples.staysStopped "ns1" "w1"
      = Some (checkRetrieved Sample.getStatus "ns1" "w1"
                (Examples.stopped "ns1" "w1"), t)
    /\ polls t = 11 /\ pauses t = 10.
Proof.
  apply (getWorkspaceByName_polls_to_the_limit Sample.getStatus
           Examples.staysStopped "ns1" "w1"
           (fun _ => Examples.stopped "ns1" "w1")).
  intros k Hk. split; [reflexivity|]. split; reflexivity.
Defined.

(** Workspace w1 is seen, then deleted and stopped: it is still cached. *)
Lemma history_keeps_cached_witness :
  let seen := Sample.event "ns1" "w1" (Js.Str "RUNNING") Js.Undefined in
  let c := final (example_modified seen new_client) in
  let later :=
    [ ChannelEvent (DeletedListener Sample.cbs1) (Js.Str "w1");
      ChangeWorkspaceStatus "ns1" "w1" false ] in
  is_Some (cached c "ns1" "w1")
  /\ is_Some (cached (example_history later c) "ns1" "w1").
Proof.
  assert (Hseen : is_Some (cached
            (final (example_modified
                      (Sample.event "ns1" "w1" (Js.Str "RUNNING") Js.Undefined)
                      new_client)) "ns1" "w1")).
  { eexists. vm_compute. reflexivity. }
  split; [exact Hseen|].
  exact (history_keeps_cached Sample.isDevWorkspace Sample.getId
           Sample.getStatus Sample.getResourceVersion Sample.wsSubscribe
           (Resolved tt) Sample.patchWorkspace
           [ ChannelEvent (DeletedListener Sample.cbs1) (Js.Str "w1");
             ChangeWorkspaceStatus "ns1" "w1" false ]
           _ "ns1" "w1" Hseen).
Defined.

Lemma onModifiedListener_caches_forwarded_update_witness :
  let payload :=
    Sample.event "ns1" "w1" (Js.Str "STARTING") (Js.Str "pulling image") in
  let r := example_modified payload new_client in
  exists u,
    status_calls (trace r) = [u]
    /\ cached (final r) "ns1" "w1" = Some u.
Proof.
  exact (onModifiedListener_caches_forwarded_update Sample.isDevWorkspace
           Sample.getId Sample.cbs1
           (Sample.event "ns1" "w1" (Js.Str "STARTING")
              (Js.Str "pulling image"))
           (Sample.workspace "ns1" "w1" (Js.Str "STARTING")
              (Some "pulling image"))
           new_client eq_refl).
Defined.

(** After w1 of ns1 has been seen, the first update for w2 of ns1 has no
    [prevStatus]. *)
Lemma reachable_prevStatus_witness :
  let ops :=
    [ ChannelEvent (ModifiedListener Sample.cbs1)
        (Sample.event "ns1" "w1" (Js.Str "RUNNING") Js.Undefined) ] in
  let payload := Sample.event "ns1" "w2" (Js.Str "RUNNING") Js.Undefined in
  exists u,
    status_calls (trace (example_modified payload
                           (example_history ops new_client))) = [u]
    /\ prevStatus u = None.
Proof.
  destruct (reachable_prevStatus Sample.isDevWorkspace Sample.getId
              Sample.getStatus Sample.getResourceVersion Sample.wsSubscribe
              (Resolved tt) Sample.patchWorkspace
              [ ChannelEvent (ModifiedListener Sample.cbs1)
                  (Sample.event "ns1" "w1" (Js.Str "RUNNING") Js.Undefined) ]
              Sample.cbs1
              (Sample.event "ns1" "w2" (Js.Str "RUNNING") Js.Undefined)
              (Sample.workspace "ns1" "w2" (Js.Str "RUNNING") None) eq_refl)
    as (u & Hcalls & Hnone & _).
  exists u. split; [exact Hcalls|].
  apply (proj2 Hnone). split.
  - eexists. vm_compute. reflexivity.
  - vm_compute. reflexivity.
Defined.

(** Between two events of w1: an event of w2, the deletion of w1 and a
    failing context. *)
Lemma prevStatus_is_previous_status_witness :
  let first := Sample.event "ns1" "w1" (Js.Str "STARTING") Js.Undefined in
  let second := Sample.event "ns1" "w1" (Js.Str "RUNNING") Js.Undefined in
  let between :=
    [ ChannelEvent (ModifiedListener Sample.cbs1)
        (Sample.event "ns1" "w2" (Js.Str "RUNNING") Js.Undefined);
      ChannelEvent (DeletedListener Sample.cbs1) (Js.Str "w1");
      WebSocketFailing "ctx" ] in
  let c1 := final (example_modified first new_client) in
  let c2 := example_history between c1 in
  exists u1 u2,
    status_calls (trace (example_modified first new_client)) = [u1]
    /\ status_calls (trace (example_modified second c2)) = [u2]
    /\ is_Some (status u1)
    /\ prevStatus u2 = status u1.
Proof.
  apply (prevStatus_is_previous_status Sample.isDevWorkspace Sample.getId
           Sample.getStatus Sample.getResourceVersion Sample.wsSubscribe
           (Resolved tt) Sample.patchWorkspace Sample.cbs1 Sample.cbs1
           (Sample.event "ns1" "w1" (Js.Str "STARTING") Js.Undefined)
           (Sample.event "ns1" "w1" (Js.Str "RUNNING") Js.Undefined)
           (Sample.workspace "ns1" "w1" (Js.Str "STARTING") None)
           (Sample.workspace "ns1" "w1" (Js.Str "RUNNING") None));
    try reflexivity.
  repeat apply Forall_cons_2; [| | |apply Forall_nil_2];
    intros (cbs & payload & dw & Hop & Hguard & Hns & Hid);
    try discriminate Hop.
  injection Hop as _ <-. vm_compute in Hguard. injection Hguard as <-.
  discriminate Hid.
Defined.

Lemma deliverModified_duplicates_witness :
  let pulling :=
    Sample.event "ns1" "w1" (Js.Str "STARTING") (Js.Str "pulling image") in
  message <$>
    status_calls
      (trace (deliverModified Sample.isDevWorkspace Sample.getId Sample.cbs1
                [pulling; pulling; pulling] new_client))
  = [Some "pulling image"; None; None].
Proof.
  exact (deliverModified_duplicates Sample.isDevWorkspace Sample.getId
           Sample.cbs1
           (Sample.event "ns1" "w1" (Js.Str "STARTING")
              (Js.Str "pulling image"))
           (Sample.workspace "ns1" "w1" (Js.Str "STARTING")
              (Some "pulling image"))
           "pulling image" 2 new_client eq_refl eq_refl).
Defined.

Lemma changeWorkspaceStatus_outcomes_witness :
  let c := set_lastDevWorkspaceLog (<["w1" := "ready"]> ∅) new_client in
  let refused := fun (_ _ : string) (_ : list devfileApi.IPatch) =>
                   @Rejects devfileApi.DevWorkspace "409" in
  (completion (changeWorkspaceStatus Sample.getId Sample.getStatus refused
                 "ns1" "w1" false c) = Abrupt (Rejection "409")
   /\ final (changeWorkspaceStatus Sample.getId Sample.getStatus refused
               "ns1" "w1" false c) = c)
  /\ completion (changeWorkspaceStatus Sample.getId Sample.getStatus
                   Sample.patchWorkspace "ns1" "w1" false c)
     = Normal (Examples.stopped "ns1" "w1").
Proof.
  split.
  - exact (proj1 (proj2 (changeWorkspaceStatus_outcomes Sample.getId
                           Sample.getStatus
                           (fun _ _ _ => Rejects "409") "ns1" "w1" false
                           (set_lastDevWorkspaceLog (<["w1" := "ready"]> ∅)
                              new_client)))
             "409" eq_refl).
  - exact (proj1 (proj2 (proj2 (changeWorkspaceStatus_outcomes Sample.getId
                           Sample.getStatus Sample.patchWorkspace
                           "ns1" "w1" false
                           (set_lastDevWorkspaceLog (<["w1" := "ready"]> ∅)
                              new_client)))
                    (Examples.stopped "ns1" "w1") eq_refl)).
Defined.

(** The transport refuses the request for onAdded: the listener of
    onModified was registered directly after its request, the refused
    request is the last event, and no listener follows it. *)
Lemma subscribe_registers_after_request_witness :
  let c := set_subscriber (Some Sample.subscriber1) new_client in
  let refused := fun msg : SubscribeMessage =>
                   if bool_decide (channel msg = "onAdded")
                   then @Rejects unit "closed" else Resolved tt in
  let r := subscribe Sample.getResourceVersion refused c in
  subscriber c = Some Sample.subscriber1
  /\ trace r !! 2
     = Some (WsAddListener onModified (ModifiedListener Sample.cbs1))
  /\ (exists j msg,
        2 = S j
        /\ trace r !! j = Some (WsSubscribe msg)
        /\ channel msg = onModified
        /\ refused msg = Resolved tt)
  /\ trace r !! 4
     = Some (WsSubscribe (subscribeMessage "ns1" (Some "42") onAdded))
  /\ length (trace r) = 5
  /\ listener_registrations (trace r)
     `prefix_of`
       [ (onModified, ModifiedListener Sample.cbs1);
         (onAdded, AddedListener Sample.cbs1);
         (onDeleted, DeletedListener Sample.cbs1) ].
Proof.
  pose proof (subscribe_registers_after_request Sample.getResourceVersion
                (fun msg => if bool_decide (channel msg = "onAdded")
                            then Rejects "closed" else Resolved tt)
                (set_subscriber (Some Sample.subscriber1) new_client)
                Sample.subscriber1 eq_refl)
    as (Hbefore & Hafter & Hprefix & _).
  split; [reflexivity|]. split; [reflexivity|].
  split; [exact (Hbefore 2 onModified (ModifiedListener Sample.cbs1) eq_refl)|].
  split; [reflexivity|].
  split; [|exact Hprefix].
  exact (proj1 (proj2 (Hafter 4 (subscribeMessage "ns1" (Some "42") onAdded)
                         eq_refl)
                  "closed" eq_refl)).
Defined.

Lemma normalizeDevfileV2_components_witness :
  let d :=
    {| devfile.metadata := None;
       devfile.components :=
         Some [ [ ("name", Js.Str "tools") ];
                [ ("name", Js.Str "data");
                  ("volume", Js.Object [ ("size", Js.Str "1Gi") ]) ] ];
       devfile.projects := Some [];
       devfile.others := [] |} in
  exists d' components,
    devfile.normalizeDevfileV2 Examples.getProjectName Examples.safeDump
      d Examples.resolved EmptyString [] = Some d'
    /\ devfile.components d' = Some components
    /\ components =
         [ [ ("name", Js.Str "tools"); ("volume", Js.Object []) ];
           [ ("name", Js.Str "data");
             ("volume", Js.Object [ ("size", Js.Str "1Gi") ]) ] ]
    /\ Forall2
         (fun original component =>
            (length (JsObject.keys original) = 1 ->
             truthy_unknown (JsObject.get "name" original) = true ->
             component = original ++ [("volume", Js.Object [])])
            /\ (length (JsObject.keys original) ≠ 1
                \/ truthy_unknown (JsObject.get "name" original) = false ->
                component = original)
            /\ (forall k, k ≠ "volume" ->
                  JsObject.get k component = JsObject.get k original)
            /\ ~ (length (JsObject.keys component) = 1
                  /\ truthy_unknown (JsObject.get "name" component) = true))
         (devfile.baseComponents d []) components.
Proof.
  intros d. eexists.
  destruct (normalizeDevfileV2_components Examples.getProjectName
              Examples.safeDump d _ Examples.resolved
              EmptyString [] eq_refl) as (components & Hc & Hall).
  exists components. split; [reflexivity|]. split; [exact Hc|].
  split; [|exact Hall].
  simpl in Hc. injection Hc as <-. reflexivity.
Defined.

(** With SCM information, the devfile with an empty list of projects keeps
    it; the devfile without the property gets the default project. *)
Lemma normalizeDevfileV2_projects_witness :
  exists d1 d2,
    devfile.normalizeDevfileV2 Examples.getProjectName Examples.safeDump
      Examples.bare Examples.resolved EmptyString [] = Some d1
    /\ devfile.projects d1 = Some []
    /\ devfile.normalizeDevfileV2 Examples.getProjectName Examples.safeDump
         Examples.bare_without_projects Examples.resolved EmptyString []
       = Some d2
    /\ devfile.projects d2
       = Some [devfile.defaultProject Examples.getProjectName Examples.scm].
Proof.
  eexists _, _. split; [reflexivity|]. split.
  - exact (proj1 (proj2 (normalizeDevfileV2_projects Examples.getProjectName
                           Examples.safeDump Examples.bare _
                           Examples.resolved EmptyString [] eq_refl))
             (ex_intro _ [] eq_refl)).
  - split; [reflexivity|].
    exact (proj1 (normalizeDevfileV2_projects Examples.getProjectName
                    Examples.safeDump Examples.bare_without_projects _
                    Examples.resolved EmptyString [] eq_refl)
             Examples.scm eq_refl eq_refl).
Defined.

Lemma normalizeDevfileV2_source_annotation_witness :
  exists d' annotation',
    devfile.normalizeDevfileV2 Examples.getProjectName Examples.safeDump
      Examples.bare Examples.resolved EmptyString [] = Some d'
    /\ JsObject.get DEVWORKSPACE_METADATA_ANNOTATION (devfile.attributesOf d')
       = Js.Object annotation'
    /\ JsObject.get DEVWORKSPACE_DEVFILE_SOURCE annotation' = Js.Str "source".
Proof.
  destruct (normalizeDevfileV2_source_annotation Examples.getProjectName
              Examples.safeDump Examples.bare Examples.resolved EmptyString [])
    as (d' & annotation' & Hd & Hann & Hsource & _).
  - left. reflexivity.
  - exists d', annotation'. split; [exact Hd|]. split; [exact Hann|].
    exact Hsource.
Defined.

Lemma normalizeDevfileV2_idempotent_witness :
  exists d',
    devfile.normalizeDevfileV2 Examples.getProjectName Examples.safeDump
      Examples.bare_without_projects Examples.resolved EmptyString []
    = Some d'
    /\ devfile.normalizeDevfileV2 Examples.getProjectName Examples.safeDump
         d' Examples.resolved EmptyString [] = Some d'.
Proof.
  eexists. split; [reflexivity|].
  apply (normalizeDevfileV2_idempotent Examples.getProjectName
           Examples.safeDump Examples.bare_without_projects).
  reflexivity.
Defined.

Lemma normalizePluginName_shape_witness :
  ascii_only "My Plugin"
  /\ exists normalized,
       normalizePluginName "My Plugin" "workspace1a2b"
       = normalized +:+ "-" +:+ "workspace1a2b"
       /\ String.length normalized = String.length "My Plugin"
       /\ Forall (fun ch => ch ≠ space /\ is_upper ch = false)
            (String.list_ascii_of_string normalized).
Proof.
  assert (Hascii : ascii_only "My Plugin").
  { unfold ascii_only. simpl. repeat constructor; vm_compute; lia. }
  split; [exact Hascii|].
  exact (normalizePluginName_shape "My Plugin" "workspace1a2b" Hascii).
Defined.

Lemma runStep_rejection_is_final_witness :
  Examples.rejecting "https://git.example/project.git" = Rejects "503"
  /\ FetchResources.runSteps Examples.rejecting
       [ ("https://git.example/project.git", false, false);
         ("https://git.example/project.git", false, true);
         ("https://git.example/other.git", true, true) ]
       FetchResources.initial
     = ([ Abrupt (Rejection "503"); Normal false; Normal false ],
        {| FetchResources.fetchResourcesPromise := Rejects "503" |},
        [FetchResources.RequestResources "https://git.example/project.git"]).
Proof.
  split; [reflexivity|].
  exact (runStep_rejection_is_final Examples.rejecting
           "https://git.example/project.git" "503" false
           [ ("https://git.example/project.git", false, true);
             ("https://git.example/other.git", true, true) ] eq_refl).
Defined.
